(** * Banggood scrape-and-normalise pipeline: embedding and properties

    A shallow embedding of [src/scraper.py], [src/cleaner.py] and the row
    loop of [src/db_load.py], followed by the properties of the
    specification that concern them.

    Conventions of the embedding.
    - A Python [str] is a list of Unicode code points ([pystr]); the character
      classes used by [str.strip], by the digit class of [re] and by
      [re.IGNORECASE] are those of CPython 3.11 (Unicode 14.0).
    - A float64 cell is a [pyfloat]: NaN, the two infinities, or a finite
      value carried as an exact rational.  Binary rounding error is outside
      the model; overflow to infinity is modelled where [float] reads a
      literal and in the sum that [median] takes of two middle values;
      [round(2)] is round-half-to-even on the exact value.
    - Integers are unbounded ([Z]); the 64-bit range of pandas' integer
      columns is outside the model.
    - Exceptions are the values of [exn], for the exceptions of class
      [Exception]; [try ... except] is [catch].  Interrupts are outside the
      model.
    - pandas is taken with its 1.x / 2.x behaviour: a missing text cell is
      rendered as the text [nan] by [astype(str)] (pandas 3 keeps such a
      cell missing), [groupby] drops the rows whose key is missing and
      [transform] gives them NaN, [median] skips missing values.  The
      columns [Category], [ProductName] and [ProductURL] hold texts or
      missing cells; a property that is stated for frames without missing
      text does not depend on the rendering.
    - The browser and the parsed page are oracles: what a navigation, a wait
      or the queries on a product block deliver is data of the model. *)

From Stdlib Require Import List Bool Arith NArith ZArith QArith Qabs Lia Lqa String Ascii.
Import ListNotations.

Set Implicit Arguments.

(** ** Python strings *)

Module PyStr.

Local Open Scope N_scope.

Definition char := N.
Definition pystr := list char.

(** ASCII literal to code points. *)
Definition str (s : string) : pystr :=
  List.map N_of_ascii (list_ascii_of_string s).

Definition in_range (lo hi c : char) : bool := (lo <=? c) && (c <=? hi).

(** [str.isspace] for one code point; the set stripped by [str.strip()]. *)
Definition is_space (c : char) : bool :=
  in_range 0x09 0x0D c || in_range 0x1C 0x20 c || (c =? 0x85) || (c =? 0xA0)
  || (c =? 0x1680) || in_range 0x2000 0x200A c || (c =? 0x2028)
  || (c =? 0x2029) || (c =? 0x202F) || (c =? 0x205F) || (c =? 0x3000).

Fixpoint lstrip_by (p : char -> bool) (s : pystr) : pystr :=
  match s with
  | [] => []
  | c :: tl => if p c then lstrip_by p tl else s
  end.

Fixpoint rstrip_by (p : char -> bool) (s : pystr) : pystr :=
  match s with
  | [] => []
  | c :: tl =>
      match rstrip_by p tl with
      | [] => if p c then [] else [c]
      | r => c :: r
      end
  end.

Definition strip_by (p : char -> bool) (s : pystr) : pystr :=
  rstrip_by p (lstrip_by p s).

(** [s.strip()] *)
Definition strip (s : pystr) : pystr := strip_by is_space s.

Fixpoint starts_with (p s : pystr) : bool :=
  match p, s with
  | [], _ => true
  | _ :: _, [] => false
  | a :: p', b :: s' => (a =? b) && starts_with p' s'
  end.

(** [s.replace(old, new)] for a non-empty [old]: leftmost, non-overlapping.
    [skip] counts the characters of a matched [old] still to be dropped. *)
Fixpoint replace_from (old new : pystr) (skip : nat) (s : pystr) : pystr :=
  match s with
  | [] => []
  | c :: tl =>
      match skip with
      | S k => replace_from old new k tl
      | O =>
          if starts_with old s
          then new ++ replace_from old new (Nat.pred (List.length old)) tl
          else c :: replace_from old new 0 tl
      end
  end.

Definition replace (old new s : pystr) : pystr := replace_from old new 0 s.

(** [re.sub(r'[class]', '', s)] for a one-character class. *)
Definition remove_class (cls : char -> bool) (s : pystr) : pystr :=
  List.filter (fun c => negb (cls c)) s.

(** Zero code points of the Unicode 14.0 decimal-digit ([Nd]) blocks: each
    block is ten consecutive code points with values 0..9. *)
Definition digit_zeros : list char :=
  [ 0x30; 0x660; 0x6f0; 0x7c0; 0x966; 0x9e6; 0xa66; 0xae6; 0xb66; 0xbe6;
    0xc66; 0xce6; 0xd66; 0xde6; 0xe50; 0xed0; 0xf20; 0x1040; 0x1090; 0x17e0;
    0x1810; 0x1946; 0x19d0; 0x1a80; 0x1a90; 0x1b50; 0x1bb0; 0x1c40; 0x1c50;
    0xa620; 0xa8d0; 0xa900; 0xa9d0; 0xa9f0; 0xaa50; 0xabf0; 0xff10; 0x104a0;
    0x10d30; 0x11066; 0x110f0; 0x11136; 0x111d0; 0x112f0; 0x11450; 0x114d0;
    0x11650; 0x116c0; 0x11730; 0x118e0; 0x11950; 0x11c50; 0x11d50; 0x11da0;
    0x16a60; 0x16ac0; 0x16b50; 0x1d7ce; 0x1d7d8; 0x1d7e2; 0x1d7ec; 0x1d7f6;
    0x1e140; 0x1e2f0; 0x1e950; 0x1fbf0 ].

(** Decimal value of a code point matched by [\d]. *)
Definition digit_value (c : char) : option N :=
  match List.find (fun z => in_range z (z + 9) c) digit_zeros with
  | Some z => Some (c - z)
  | None => None
  end.

Definition is_digit (c : char) : bool :=
  match digit_value c with Some _ => true | None => false end.

(** Longest prefix of [s] whose characters satisfy [p], and the rest. *)
Fixpoint span (p : char -> bool) (s : pystr) : pystr * pystr :=
  match s with
  | [] => ([], [])
  | c :: tl =>
      if p c then let (run, rest) := span p tl in (c :: run, rest)
      else ([], s)
  end.

(** [re.search(r'(\d+)', s)]: the first maximal run of digits, if any. *)
Fixpoint search_digits (s : pystr) : option pystr :=
  match s with
  | [] => None
  | c :: tl => if is_digit c then Some (fst (span is_digit s)) else search_digits tl
  end.

(** Value of a run of decimal digits. *)
Definition digits_value (ds : pystr) : N :=
  List.fold_left
    (fun acc c => 10 * acc + match digit_value c with Some d => d | None => 0 end)
    ds 0.

(** CPython's default [sys.int_info.default_max_str_digits]. *)
Definition int_max_str_digits : nat := 4300.

(** [int(t)] for [t] a non-empty run of decimal digits; [None] is the
    [ValueError] raised for a run longer than the digit limit. *)
Definition int_of_digits (t : pystr) : option Z :=
  if (int_max_str_digits <? List.length t)%nat then None
  else Some (Z.of_N (digits_value t)).

End PyStr.
Import PyStr.

(** ** Exceptions *)

Inductive exception := AssertionError | OverflowError | ValueError | OtherError.

Inductive exn (A : Type) : Type :=
| Ok (a : A)
| Raise (e : exception).
Arguments Ok {A} a.
Arguments Raise {A} e.

Definition bind {A B} (m : exn A) (k : A -> exn B) : exn B :=
  match m with
  | Ok a => k a
  | Raise e => Raise e
  end.

(** [try: m  except: h] *)
Definition catch {A} (m : exn A) (h : exception -> exn A) : exn A :=
  match m with
  | Ok a => Ok a
  | Raise e => h e
  end.

Declare Scope exn_scope.
Delimit Scope exn_scope with exn.
Notation "x <- m ;; k" := (bind m (fun x => k))
  (at level 61, m at next level, right associativity) : exn_scope.

Fixpoint mapM {A B} (f : A -> exn B) (l : list A) : exn (list B) :=
  match l with
  | [] => Ok []
  | x :: tl => bind (f x) (fun y => bind (mapM f tl) (fun r => Ok (y :: r)))
  end.

(** ** float64 values *)

Module PyFloat.

Local Open Scope Q_scope.

Inductive pyfloat :=
| NaN
| NInf
| PInf
| Fin (q : Q).

(** [pd.isna] / [pd.notna] on a float cell. *)
Definition isna (x : pyfloat) : bool :=
  match x with NaN => true | _ => false end.

Definition notna (x : pyfloat) : bool := negb (isna x).

(** [x.fillna(v)] on one cell. *)
Definition fillna (v x : pyfloat) : pyfloat := if isna x then v else x.

Definition Qlt_bool (a b : Q) : bool := negb (Qle_bool b a).

(** [x < y] *)
Definition flt (x y : pyfloat) : bool :=
  match x, y with
  | NaN, _ | _, NaN => false
  | _, NInf => false
  | NInf, _ => true
  | PInf, _ => false
  | Fin _, PInf => true
  | Fin a, Fin b => Qlt_bool a b
  end.

(** [x <= y] *)
Definition fle (x y : pyfloat) : bool :=
  match x, y with
  | NaN, _ | _, NaN => false
  | NInf, _ => true
  | _, PInf => true
  | _, NInf => false
  | PInf, _ => false
  | Fin a, Fin b => Qle_bool a b
  end.

(** [x == y] as numbers. *)
Definition feq (x y : pyfloat) : bool := fle x y && fle y x.

(** Magnitude at which a result rounds to infinity: [2^1024 - 2^970]. *)
Definition float_overflow : Q := inject_Z (2 ^ 1024 - 2 ^ 970).

Definition finite_or_inf (q : Q) : pyfloat :=
  if Qle_bool float_overflow (Qabs q)
  then (if Qle_bool 0 q then PInf else NInf)
  else Fin q.

(** [x + y]: a finite sum of magnitude [float_overflow] or more is
    infinite. *)
Definition fadd (x y : pyfloat) : pyfloat :=
  match x, y with
  | NaN, _ | _, NaN => NaN
  | PInf, NInf | NInf, PInf => NaN
  | PInf, _ | _, PInf => PInf
  | NInf, _ | _, NInf => NInf
  | Fin a, Fin b => finite_or_inf (a + b)
  end.

(** [x / n] for an integer [n >= 1]. *)
Definition fdiv_count (x : pyfloat) (n : positive) : pyfloat :=
  match x with
  | Fin a => Fin (a / inject_Z (Zpos n))
  | _ => x
  end.

(** Nearest integer, ties to the even one (numpy's [rint]). *)
Definition round_half_even (q : Q) : Z :=
  let n := Qnum q in
  let d := Zpos (Qden q) in
  let k := (n / d)%Z in
  let r := (n mod d)%Z in
  match (2 * r ?= d)%Z with
  | Lt => k
  | Gt => (k + 1)%Z
  | Eq => if Z.even k then k else (k + 1)%Z
  end.

(** [x.round(2)] *)
Definition round2 (x : pyfloat) : pyfloat :=
  match x with
  | Fin q => Fin (round_half_even (q * 100) # 100)
  | _ => x
  end.

(** [int(x)] on a float: truncation towards zero. *)
Definition int_of_float (x : pyfloat) : exn Z :=
  match x with
  | Fin q => Ok (Z.quot (Qnum q) (Zpos (Qden q)))
  | NaN => Raise ValueError
  | _ => Raise OverflowError
  end.

(** [Series.astype(int)] on one float cell: truncation; pandas refuses
    non-finite values with a [ValueError]. *)
Definition astype_int (x : pyfloat) : exn Z :=
  match x with
  | Fin q => Ok (Z.quot (Qnum q) (Zpos (Qden q)))
  | _ => Raise ValueError
  end.

Definition of_int (z : Z) : pyfloat := Fin (inject_Z z).

Fixpoint insert_sorted (x : pyfloat) (l : list pyfloat) : list pyfloat :=
  match l with
  | [] => [x]
  | y :: tl => if fle x y then x :: l else y :: insert_sorted x tl
  end.

Definition sort (l : list pyfloat) : list pyfloat :=
  List.fold_right insert_sorted [] l.

(** [Series.median()]: missing values are skipped; an empty selection has
    median NaN; an even count gives [(a + b) / 2] for the two middle values
    [a] and [b], so that a sum that overflows makes the median infinite. *)
Definition median (col : list pyfloat) : pyfloat :=
  let v := sort (List.filter notna col) in
  let n := List.length v in
  match n with
  | O => NaN
  | _ =>
      if Nat.even n
      then fdiv_count (fadd (nth (n / 2 - 1) v NaN) (nth (n / 2) v NaN)) 2
      else nth (n / 2) v NaN
  end.

(** *** [float(text)] *)

Local Open Scope N_scope.

(** Whitespace accepted around a float literal: ASCII blanks and the
    non-ASCII Unicode spaces. *)
Definition float_space (c : char) : bool :=
  in_range 0x09 0x0D c || (c =? 0x20) || ((0x80 <=? c) && is_space c).

(** Underscores are allowed only between two digits; they are dropped. *)
Fixpoint drop_underscores (prev_digit : bool) (s : pystr) : option pystr :=
  match s with
  | [] => Some []
  | c :: tl =>
      if c =? 0x5F then
        if prev_digit && match tl with d :: _ => is_digit d | [] => false end
        then drop_underscores false tl
        else None
      else option_map (cons c) (drop_underscores (is_digit c) tl)
  end.

(** ASCII lower case. *)
Definition ascii_lower (c : char) : char :=
  if in_range 0x41 0x5A c then c + 0x20 else c.

Fixpoint pystr_eqb (a b : pystr) : bool :=
  match a, b with
  | [], [] => true
  | x :: a', y :: b' => (x =? y) && pystr_eqb a' b'
  | _, _ => false
  end.

(** Optional sign: [(negative, rest)]. *)
Definition split_sign (s : pystr) : bool * pystr :=
  match s with
  | c :: tl => if c =? 0x2D then (true, tl) else if c =? 0x2B then (false, tl) else (false, s)
  | [] => (false, s)
  end.

(** [mantissa * 10 ^ e] *)
Definition scale10 (m : Z) (e : Z) : Q :=
  if (0 <=? e)%Z then inject_Z (m * 10 ^ e) else Qmake m (Z.to_pos (10 ^ (- e))).

(** Unsigned decimal literal: digits, optional fraction, optional exponent,
    at least one mantissa digit, nothing left over. *)
Definition parse_decimal (s : pystr) : option Q :=
  let (ip, r1) := span is_digit s in
  let (fp, r2) :=
    match r1 with
    | c :: tl => if c =? 0x2E then span is_digit tl else ([], r1)
    | [] => ([], r1)
    end in
  match ip ++ fp with
  | [] => None
  | mant =>
      let m := Z.of_N (digits_value mant) in
      let frac := Z.of_nat (List.length fp) in
      match r2 with
      | [] => Some (scale10 m (- frac))
      | c :: tl =>
          if (c =? 0x65) || (c =? 0x45) then
            let (neg, r3) := split_sign tl in
            match span is_digit r3 with
            | ((_ :: _) as ep, []) =>
                let e := Z.of_N (digits_value ep) in
                Some (scale10 m ((if neg then - e else e) - frac))
            | _ => None
            end
          else None
      end
  end.

(** [float(text)]; [None] is the [ValueError]. *)
Definition py_float (text : pystr) : option pyfloat :=
  match drop_underscores false (strip_by float_space text) with
  | None => None
  | Some s =>
      let (neg, body) := split_sign s in
      let word := List.map ascii_lower body in
      if pystr_eqb word (str "inf") || pystr_eqb word (str "infinity")
      then Some (if neg then NInf else PInf)
      else if pystr_eqb word (str "nan") then Some NaN
      else
        match parse_decimal body with
        | Some q => Some (finite_or_inf (if neg then Qopp q else q))
        | None => None
        end
  end.

End PyFloat.
Import PyFloat.

(** ** Text and field extractors, page fetch, category crawl ([scraper.py]) *)

Module Scraper.

Local Open Scope N_scope.

Definition MAX_RETRIES_PER_PAGE : nat := 3.

(** [[\x00-\x1F\x7F-\x9F]] *)
Definition is_control (c : char) : bool :=
  in_range 0x00 0x1F c || in_range 0x7F 0x9F c.

(** [clean_text], lines 49-64. *)
Definition clean_text (text : pystr) : pystr :=
  match text with
  | [] => []
  | _ =>
      let text := strip text in
      let text := replace [0xA0] [0x20] text in
      let text := replace [0x2009] [0x20] text in
      let text := replace [0x200B] [] text in
      let text := replace [0x200C] [] text in
      let text := replace [0x200D] [] text in
      let text := replace [0xFEFF] [] text in
      let text := remove_class is_control text in
      strip text
  end.

(** [extract_price], lines 135-147. *)
Definition extract_price (price_text : pystr) : option pyfloat :=
  match price_text with
  | [] => None
  | _ =>
      let price_text := clean_text price_text in
      let price_clean := List.filter (fun c => is_digit c || (c =? 0x2E)) price_text in
      match price_clean with
      | [] => None
      | _ =>
          match py_float price_clean with
          | Some price_value => if flt (Fin 0) price_value then Some price_value else None
          | None => None
          end
      end
  end.

(** [re.search] for the pattern of line 156, a run of digits, an optional
    dot or comma, and further digits: the matched text. *)
Fixpoint search_rating (s : pystr) : option pystr :=
  match s with
  | [] => None
  | c :: tl =>
      if is_digit c then
        let (ip, r1) := span is_digit s in
        match r1 with
        | d :: r2 =>
            if (d =? 0x2E) || (d =? 0x2C)
            then Some (ip ++ d :: fst (span is_digit r2))
            else Some ip
        | [] => Some ip
        end
      else search_rating tl
  end.

(** [extract_rating], lines 149-164. *)
Definition extract_rating (rating_text : pystr) : option pyfloat :=
  match rating_text with
  | [] => None
  | _ =>
      let rating_text := clean_text rating_text in
      match search_rating rating_text with
      | Some m =>
          let rating_str := replace [0x2C] [0x2E] m in
          match py_float rating_str with
          | Some rating_value =>
              if fle (Fin 0) rating_value && fle rating_value (Fin 5)
              then Some rating_value else None
          | None => None
          end
      | None => None
      end
  end.

(** A character of the text matches the lower-case pattern letter [p] under
    [re.IGNORECASE] (for the letters of [reviews]: the two ASCII cases, and
    the dotted/dotless i and the long s). *)
Definition ci_eqb (p c : char) : bool :=
  (c =? p) || (c =? p - 0x20)
  || ((p =? 0x69) && ((c =? 0x130) || (c =? 0x131)))
  || ((p =? 0x73) && (c =? 0x17F)).

Fixpoint starts_with_ci (p s : pystr) : bool :=
  match p, s with
  | [], _ => true
  | _ :: _, [] => false
  | a :: p', b :: s' => ci_eqb a b && starts_with_ci p' s'
  end.

(** [re.sub(r'reviews?', '', s, flags=re.IGNORECASE)]; [skip] counts the
    characters of the current match still to be dropped. *)
Fixpoint sub_reviews_from (skip : nat) (s : pystr) : pystr :=
  match s with
  | [] => []
  | c :: tl =>
      match skip with
      | S k => sub_reviews_from k tl
      | O =>
          if starts_with_ci (str "review") s then
            if starts_with_ci (str "reviews") s
            then sub_reviews_from 6 tl
            else sub_reviews_from 5 tl
          else c :: sub_reviews_from 0 tl
      end
  end.

Definition sub_reviews (s : pystr) : pystr := sub_reviews_from 0 s.

(** [extract_review_count], lines 166-182. *)
Definition extract_review_count (review_text : pystr) : Z :=
  match review_text with
  | [] => 0%Z
  | _ =>
      let review_text := clean_text review_text in
      let review_text := sub_reviews review_text in
      let review_text := strip review_text in
      match search_digits review_text with
      | Some m =>
          match int_of_digits m with
          | Some n => n
          | None => 0%Z
          end
      | None => 0%Z
      end
  end.

(** One scraped listing, as appended to [products]. *)
Record raw_record := mkRecord {
  rec_category : pystr;
  rec_name : pystr;
  rec_price : option pyfloat;
  rec_rating : option pyfloat;
  rec_reviews : Z;
  rec_url : option pystr }.

(** What the BeautifulSoup queries of lines 236-300 find in one product
    block: the text of the title link, the [href] of the chosen link, the
    price element ([oriprice] attribute and rendered text), the text of the
    rating element, the text of the review element. *)
Record block_fields := mkFields {
  f_name : option pystr;
  f_href : option pystr;
  f_price : option (option pystr * pystr);
  f_rating : option pystr;
  f_review : option pystr }.

(** A product block: its queries deliver the fields or raise. *)
Definition block := exn block_fields.

(** Body of the [try] of lines 234-310; [Ok None] is the [continue] taken
    for a block without a name. *)
Definition extract_block (category : pystr) (b : block) : exn (option raw_record) :=
  bind b (fun f =>
    match f_name f with
    | Some ((_ :: _) as product_name) =>
        let product_url :=
          match f_href f with
          | Some ((_ :: _) as u) =>
              if starts_with (str "http") u then Some u
              else Some (str "https://www.banggood.com" ++ u)
          | other => other
          end in
        let price :=
          match f_price f with
          | Some (oriprice, price_text) =>
              let price :=
                match oriprice with
                | Some ((_ :: _) as o) => extract_price o
                | _ => None
                end in
              match price with
              | None => match price_text with [] => None | _ => extract_price price_text end
              | Some _ => price
              end
          | None => None
          end in
        let rating :=
          match f_rating f with
          | Some t => extract_rating (clean_text t)
          | None => None
          end in
        let review_count :=
          match f_review f with
          | Some t => extract_review_count (clean_text t)
          | None => 0%Z
          end in
        Ok (Some (mkRecord category product_name price rating review_count product_url))
    | _ => Ok None
    end).

(** The [for block in product_blocks] loop with its per-block
    [try ... except Exception: continue]. *)
Fixpoint scrape_blocks (category : pystr) (product_blocks : list block)
    (products : list raw_record) : list raw_record :=
  match product_blocks with
  | [] => products
  | b :: rest =>
      match catch (extract_block category b) (fun _ => Ok None) with
      | Ok (Some r) => scrape_blocks category rest (products ++ [r])
      | _ => scrape_blocks category rest products
      end
  end.

(** What the browser does on one navigation to the page: [driver.get]
    returns or raises; each of the three waits finds its marker or not (a
    time-out or any other exception, all caught by the bare [except]);
    reading and parsing the page source delivers the product blocks or
    raises. *)
Record attempt := mkAttempt {
  get_raises : option exception;
  priced_marker : bool;
  price_marker : bool;
  block_marker : bool;
  page_blocks : exn (list block) }.

(** The browser, by navigation number. *)
Definition driver := nat -> attempt.

(** [scrape_page], lines 184-317.  [remaining] is
    [MAX_RETRIES_PER_PAGE - retry_count], so that [remaining = 0] is the
    failure of the test [retry_count < MAX_RETRIES_PER_PAGE].  [body] is
    the body of the outer [try]; its handler returns [products], still
    empty whenever an exception reaches it.  The result is paired with the
    number of navigations made. *)
Fixpoint scrape_page_from (d : driver) (category : pystr)
    (remaining retry_count : nat) : nat * exn (list raw_record) :=
  let a := d retry_count in
  let products : list raw_record := [] in
  let (visits, body) :=
    match get_raises a with
    | Some e => (1%nat, Raise e)
    | None =>
        if priced_marker a || price_marker a || block_marker a then
          (1%nat,
           bind (page_blocks a) (fun product_blocks =>
           Ok (scrape_blocks category product_blocks products)))
        else
          match remaining with
          | S k =>
              let (n, r) := scrape_page_from d category k (S retry_count) in
              (S n, r)
          | O => (1%nat, Ok products)
          end
    end in
  (visits, catch body (fun _ => Ok products)).

Definition scrape_page (d : driver) (category : pystr) (retry_count : nat)
  : nat * exn (list raw_record) :=
  scrape_page_from d category (MAX_RETRIES_PER_PAGE - retry_count) retry_count.

(** The page loop of [main] for one category, lines 350-363.  [scrape] is
    [scrape_page(driver, category, base_url, page)]; the result is the list
    of pages fetched, in order, and [category_products]. *)
Fixpoint crawl_pages (scrape : nat -> list raw_record) (pages : list nat)
    (fetched : list nat) (category_products : list raw_record)
  : list nat * list raw_record :=
  match pages with
  | [] => (fetched, category_products)
  | page :: rest =>
      let products := scrape page in
      if (List.length products =? 0)%nat && (1 <? page)%nat
      then (fetched ++ [page], category_products)
      else crawl_pages scrape rest (fetched ++ [page]) (category_products ++ products)
  end.

Definition crawl_category (scrape : nat -> list raw_record) (pages_to_scrape : nat)
  : list nat * list raw_record :=
  crawl_pages scrape (List.seq 1 pages_to_scrape) [] [].

(** *** Vocabulary of the properties *)

(** No character that [clean_text] replaces or removes. *)
Definition scrubbed (t : pystr) : Prop :=
  Forall (fun x => x <> 0xA0) t /\ Forall (fun x => x <> 0x2009) t /\
  Forall (fun x => x <> 0x200B) t /\ Forall (fun x => x <> 0x200C) t /\
  Forall (fun x => x <> 0x200D) t /\ Forall (fun x => x <> 0xFEFF) t /\
  Forall (fun x => is_control x = false) t.

(** The records of the blocks that neither raise nor lack a name. *)
Definition kept (category : pystr) (product_blocks : list block) : list raw_record :=
  List.flat_map (fun b => match extract_block category b with
                     | Ok (Some r) => [r]
                     | _ => []
                     end) product_blocks.

(** No content marker appears on navigation [a], which itself succeeds. *)
Definition quiet (a : attempt) : Prop :=
  get_raises a = None /\ priced_marker a = false /\ price_marker a = false /\
  block_marker a = false.

(** Navigation [a] succeeds and one of the three markers appears. *)
Definition rendered (a : attempt) : Prop :=
  get_raises a = None /\ (priced_marker a || price_marker a || block_marker a) = true.

(** *** Sample data *)

(** A browser on which no content marker ever appears. *)
Definition blank_driver : driver :=
  fun _ => mkAttempt None false false false (Ok []).

Definition drill_fields : block_fields :=
  mkFields (Some (str "Drill")) (Some (str "/p/drill.html"))
           (Some (Some (str "12.50"), str "US$12.50"))
           (Some (str "4.8")) (Some (str "3 reviews")).

(** A browser that renders on the second navigation, with a page of three
    blocks of which the middle one raises. *)
Definition late_driver : driver :=
  fun n =>
    match n with
    | O => mkAttempt None false false false (Ok [])
    | _ => mkAttempt None false true false
             (Ok [Ok drill_fields; Raise OtherError; Ok drill_fields])
    end.

Definition drill_record : raw_record :=
  mkRecord (str "Tools") (str "Drill") (Some (Fin 12.50)) (Some (Fin 4.8)) 3%Z
           (Some (str "https://www.banggood.com/p/drill.html")).

(** Five pages of which the third is empty. *)
Definition five_pages (page : nat) : list raw_record :=
  if (page =? 3)%nat then [] else [drill_record].

End Scraper.

(** ** Cleaning and derived features ([cleaner.py]) *)

Module Cleaner.

(** A cell of a column that [read_csv] could not or did not type as text
    only: a number (NaN when the cell is missing) or a text. *)
Inductive cell :=
| CNum (x : pyfloat)
| CStr (s : pystr).

(** One row of a frame with the six raw columns; [V] is the type of the
    [Price] and [Rating] cells and [C] that of the [ReviewCount] cells.  A
    text cell is [None] when missing. *)
Record row (V C : Type) := mkRow {
  Category : option pystr;
  ProductName : option pystr;
  Price : V;
  Rating : V;
  ReviewCount : C;
  ProductURL : option pystr }.

(** The frame loaded by [pd.read_csv]. *)
Abbreviation raw_row := (row cell cell).
(** The frame handed to [create_derived_features]. *)
Abbreviation num_row := (row pyfloat pyfloat).
(** The frame once [ReviewCount] has been cast to [int]. *)
Abbreviation int_row := (row pyfloat Z).

(** A row of the frame with the two derived columns. *)
Record drow := mkDRow {
  base :> int_row;
  IsHighValue : Z;
  PricePerReview : pyfloat }.

Definition set_Price {C} (p : pyfloat) (r : row pyfloat C) : row pyfloat C :=
  mkRow (Category r) (ProductName r) p (Rating r) (ReviewCount r) (ProductURL r).

Definition set_Rating {C} (x : pyfloat) (r : row pyfloat C) : row pyfloat C :=
  mkRow (Category r) (ProductName r) (Price r) x (ReviewCount r) (ProductURL r).

Definition set_ReviewCount {V C D} (n : D) (r : row V C) : row V D :=
  mkRow (Category r) (ProductName r) (Price r) (Rating r) n (ProductURL r).

(** [clean_price], lines 11-23; the result [None] is the missing cell NaN. *)
Definition clean_price (price : cell) : pyfloat :=
  match price with
  | CNum x => if isna x then NaN else x
  | CStr s =>
      let price_str := strip (replace (str "$") [] (replace (str "US$") [] s)) in
      let price_clean := List.filter (fun c => is_digit c || (c =? 0x2E)%N) price_str in
      match py_float price_clean with
      | Some v => v
      | None => NaN
      end
  end.

(** [clean_rating], lines 25-34. *)
Definition clean_rating (rating : cell) : pyfloat :=
  match rating with
  | CNum x => if isna x then Fin 0 else x
  | CStr s =>
      match py_float s with
      | Some v => v
      | None => Fin 0
      end
  end.

(** [clean_review_count], lines 36-49; the conversion of an infinite number
    is outside any [try] and raises. *)
Definition clean_review_count (review_count : cell) : exn Z :=
  match review_count with
  | CNum x => if isna x then Ok 0%Z else int_of_float x
  | CStr s =>
      match search_digits s with
      | Some m =>
          match int_of_digits m with
          | Some n => Ok n
          | None => Ok 0%Z
          end
      | None => Ok 0%Z
      end
  end.

Definition pystr_eq_dec : forall a b : pystr, {a = b} + {a <> b} :=
  list_eq_dec N.eq_dec.

Definition in_category {V C} (c : pystr) (r : row V C) : bool :=
  match Category r with
  | Some c' => if pystr_eq_dec c c' then true else false
  | None => false
  end.

(** The [Price] cells of the group of category [c]. *)
Definition group_prices {C} (df : list (row pyfloat C)) (c : pystr) : list pyfloat :=
  List.map (@Price _ _) (List.filter (in_category c) df).

(** Line 56: [df['ReviewCount'].fillna(0).astype(int)]. *)
Definition fill_review_count (df : list num_row) : exn (list int_row) :=
  mapM (fun r => bind (astype_int (fillna (of_int 0) (ReviewCount r)))
                      (fun n => Ok (set_ReviewCount n r))) df.

(** Line 59: [df['Rating'].fillna(0.0).astype(float)]. *)
Definition fill_rating (df : list int_row) : list int_row :=
  List.map (fun r => set_Rating (fillna (Fin 0) (Rating r)) r) df.

(** Lines 63-65: the per-category [transform]; a row whose category is
    missing is in no group and receives NaN. *)
Definition fill_price_by_category (df : list int_row) : list int_row :=
  List.map (fun r =>
    set_Price
      match Category r with
      | Some c =>
          let x := group_prices df c in
          if notna (median x) then fillna (median x) (Price r) else Price r
      | None => NaN
      end r) df.

(** Lines 67-70. *)
Definition fill_price_overall (df : list int_row) : list int_row :=
  let overall_median := median (List.map (@Price _ _) df) in
  let overall_median := if isna overall_median then Fin 0 else overall_median in
  List.map (fun r => set_Price (fillna overall_median (Price r)) r) df.

(** The present categories, each once (the index of a [groupby] result). *)
Definition categories {V C} (df : list (row V C)) : list pystr :=
  nodup pystr_eq_dec
    (List.flat_map (fun r => match Category r with Some c => [c] | None => [] end) df).

(** Line 73: [df.groupby('Category')['Price'].median()]. *)
Definition category_medians (df : list int_row) : list (pystr * pyfloat) :=
  List.map (fun c => (c, median (group_prices df c))) (categories df).

(** [series.get(key, default)] *)
Fixpoint series_get (s : list (pystr * pyfloat)) (key : option pystr)
    (default : pyfloat) : pyfloat :=
  match s, key with
  | (k, v) :: tl, Some c => if pystr_eq_dec c k then v else series_get tl key default
  | _, _ => default
  end.

(** [calculate_is_high_value], lines 76-85. *)
Definition calculate_is_high_value (medians : list (pystr * pyfloat))
    (r : int_row) : Z :=
  let category_median := series_get medians (Category r) (Price r) in
  let category_median := if isna category_median then Price r else category_median in
  if isna (Rating r) || isna (Price r) then 0%Z
  else if fle (Fin 4.5) (Rating r) && flt (Price r) category_median then 1%Z
  else 0%Z.

(** Line 87. *)
Definition add_is_high_value (df : list int_row) : list (int_row * Z) :=
  let medians := category_medians df in
  List.map (fun r => (r, calculate_is_high_value medians r)) df.

(** Lines 90-93: [Price / max(ReviewCount, 1)]. *)
Definition price_per_review (r : int_row) : pyfloat :=
  fdiv_count (Price r) (Z.to_pos (Z.max (ReviewCount r) 1)).

Definition add_price_per_review (df : list (int_row * Z)) : list drow :=
  List.map (fun rh => mkDRow (fst rh) (snd rh) (price_per_review (fst rh))) df.

(** [create_derived_features], lines 51-95, on the copy of its argument. *)
Definition create_derived_features (df : list num_row) : exn (list drow) :=
  bind (fill_review_count df) (fun df =>
  let df := fill_rating df in
  let df := fill_price_by_category df in
  let df := fill_price_overall df in
  let df := add_is_high_value df in
  Ok (add_price_per_review df)).

(** *** The frames as objects

    A frame object is one of the three shapes the local [df] of
    [create_derived_features] goes through; the heap maps addresses (list
    positions) to frame objects. *)
Inductive frame :=
| Cleaned (t : list num_row)
| Counted (t : list int_row)
| Flagged (t : list (int_row * Z))
| Derived (t : list drow).

Definition heap := list frame.

(** In-place assignment to the object at address [a]. *)
Fixpoint store (h : heap) (a : nat) (f : frame) : heap :=
  match h, a with
  | [], _ => []
  | _ :: tl, O => f :: tl
  | x :: tl, S a' => x :: store tl a' f
  end.

(** [df.copy()]: a new object with the same content; its address. *)
Definition copy (h : heap) (a : nat) : option (heap * nat) :=
  match nth_error h a with
  | Some f => Some (h ++ [f], List.length h)
  | None => None
  end.

(** A column assignment [df[...] = ...]: the object at [a] is read, and the
    frame computed from it is stored back at [a]. *)
Definition assign (step : frame -> exn frame) (h : heap) (a : nat) : heap * exn unit :=
  match nth_error h a with
  | Some f =>
      match step f with
      | Ok f' => (store h a f', Ok tt)
      | Raise e => (h, Raise e)
      end
  | None => (h, Raise OtherError)
  end.

Definition on_cleaned (g : list num_row -> exn frame) (f : frame) : exn frame :=
  match f with Cleaned t => g t | _ => Raise OtherError end.

Definition on_counted (g : list int_row -> frame) (f : frame) : exn frame :=
  match f with Counted t => Ok (g t) | _ => Raise OtherError end.

Definition on_flagged (g : list (int_row * Z) -> frame) (f : frame) : exn frame :=
  match f with Flagged t => Ok (g t) | _ => Raise OtherError end.

(** The statements of [create_derived_features] after the copy, in order,
    as assignments to the frame object. *)
Definition statements : list (frame -> exn frame) :=
  [ on_cleaned (fun t => bind (fill_review_count t) (fun t' => Ok (Counted t')));
    on_counted (fun t => Counted (fill_rating t));
    on_counted (fun t => Counted (fill_price_by_category t));
    on_counted (fun t => Counted (fill_price_overall t));
    on_counted (fun t => Flagged (add_is_high_value t));
    on_flagged (fun t => Derived (add_price_per_review t)) ].

Fixpoint run (steps : list (frame -> exn frame)) (h : heap) (a : nat) : heap * exn unit :=
  match steps with
  | [] => (h, Ok tt)
  | s :: rest =>
      match assign s h a with
      | (h', Ok _) => run rest h' a
      | (h', Raise e) => (h', Raise e)
      end
  end.

(** [create_derived_features(df)] on the heap: the argument is the address
    of a frame object, the result the address of the returned one. *)
Definition create_derived_features_at (h : heap) (df : nat) : heap * exn nat :=
  match copy h df with
  | Some (h, df) =>
      match run statements h df with
      | (h', Ok _) => (h', Ok df)
      | (h', Raise e) => (h', Raise e)
      end
  | None => (h, Raise OtherError)
  end.

(** *** [clean_data] *)

(** [Series.astype(str)] on a text cell, as pandas 1.x and 2.x do it: a
    missing cell becomes the text [nan]. *)
Definition astype_str (x : option pystr) : pystr :=
  match x with
  | Some s => s
  | None => str "nan"
  end.

(** Lines 107-123: the column cleaners, row by row. *)
Definition clean_columns (df : list raw_row) : exn (list num_row) :=
  mapM (fun r =>
    bind (clean_review_count (ReviewCount r)) (fun n =>
    Ok (mkRow (Some (strip (astype_str (Category r))))
              (Some (strip (astype_str (ProductName r))))
              (clean_price (Price r))
              (clean_rating (Rating r))
              (of_int n)
              (Some (strip (astype_str (ProductURL r))))))) df.

(** Line 126: [ProductName.notna() & (ProductName != '')]. *)
Definition has_name {V C} (r : row V C) : bool :=
  match ProductName r with
  | Some (_ :: _) => true
  | _ => false
  end.

Definition drop_nameless (df : list num_row) : list num_row :=
  List.filter has_name df.

(** Lines 143-147: [Price], [PricePerReview] and [Rating] rounded to two
    decimals. *)
Definition round_row (d : drow) : drow :=
  mkDRow (set_Rating (round2 (Rating d)) (set_Price (round2 (Price d)) (base d)))
         (IsHighValue d)
         (round2 (PricePerReview d)).

Definition round_columns (df : list drow) : list drow := List.map round_row df.

(** [assert cond] *)
Definition assert (cond : bool) : exn unit :=
  if cond then Ok tt else Raise AssertionError.

(** Lines 150-153; an integer column holds no missing value. *)
Definition validate (df : list drow) : exn unit :=
  bind (assert (List.forallb (fun d : drow => notna (Price d)) df)) (fun _ =>
  bind (assert (List.forallb (fun d : drow => notna (PricePerReview d)) df)) (fun _ =>
  bind (assert (List.forallb (fun d : drow => true) df)) (fun _ =>
  assert (List.forallb (fun d : drow => notna (Rating d)) df)))).

(** Lines 104-147: everything [clean_data] does to the loaded frame before
    the final validation. *)
Definition prepare (df : list raw_row) : exn (list drow) :=
  bind (clean_columns df) (fun df =>
  let df := drop_nameless df in
  bind (create_derived_features df) (fun df =>
  Ok (round_columns df))).

(** What a run of [clean_data] leaves: the value returned or the exception
    raised, and the table written to [output_path], if any. *)
Record outcome := mkOutcome {
  returned : exn (list drow);
  saved : option (list drow) }.

(** Lines 149-165: the final validation, then the table is saved and
    returned. *)
Definition finish (df : list drow) : outcome :=
  match validate df with
  | Ok _ => mkOutcome (Ok df) (Some df)
  | Raise e => mkOutcome (Raise e) None
  end.

(** [clean_data], lines 97-165, from the frame loaded at line 101. *)
Definition clean_data (df : list raw_row) : outcome :=
  match prepare df with
  | Ok df => finish df
  | Raise e => mkOutcome (Raise e) None
  end.

(** *** Vocabulary of the properties *)

(** A row of the derived frame: the flag of line 87 and the quotient of
    lines 90-93 next to the row they are computed from. *)
Definition derive (medians : list (pystr * pyfloat)) (r : int_row) : drow :=
  mkDRow r (calculate_is_high_value medians r) (price_per_review r).

(** Median of the [Price] cells of the rows of [table] that have the
    category of [d]; undefined (NaN) when [d] has no category. *)
Definition category_median_of (table : list drow) (d : drow) : pyfloat :=
  match Category d with
  | Some c => median (List.map (fun x : drow => Price x)
                         (List.filter (fun x : drow => in_category c x) table))
  | None => NaN
  end.

(** The median a row is compared with: its category's, or, when that is
    undefined, the row's own price. *)
Definition reference_median (table : list drow) (d : drow) : pyfloat :=
  if isna (category_median_of table d) then Price d else category_median_of table d.

(** The three conditions asserted on a row of a float column. *)
Definition complete (d : drow) : bool :=
  notna (Price d) && notna (PricePerReview d) && notna (Rating d).

Definition in_0_5 (x : pyfloat) : bool := fle (Fin 0) x && fle x (Fin 5).

(** A loaded frame of one row: price 0.254, two reviews. *)
Definition quarter_row : list raw_row :=
  [ mkRow (Some (str "Tools")) (Some (str "Drill")) (CNum (Fin 0.254))
          (CNum (Fin 4.8)) (CNum (Fin 2)) (Some (str "https://www.banggood.com/p")) ].

(** A loaded frame of one row whose product name is missing. *)
Definition nameless_row : list raw_row :=
  [ mkRow (Some (str "Tools")) None (CNum (Fin 12.5)) (CNum (Fin 4.8))
          (CNum (Fin 3)) (Some (str "https://www.banggood.com/p")) ].

(** A loaded frame of one row whose rating is the number 7. *)
Definition seven_row : list raw_row :=
  [ mkRow (Some (str "Tools")) (Some (str "Drill")) (CNum (Fin 12.5))
          (CNum (Fin 7)) (CNum (Fin 3)) (Some (str "https://www.banggood.com/p")) ].

(** The two rows of the specification's scenario, as loaded. *)
Definition tools_rows : list raw_row :=
  [ mkRow (Some (str "Tools")) (Some (str "Drill")) (CStr (str "US$12.50"))
          (CStr (str "4.8")) (CStr (str "3 reviews")) (Some (str "https://www.banggood.com/a"));
    mkRow (Some (str "Tools")) (Some (str "Saw")) (CNum NaN)
          (CStr (str "3.0")) (CStr (str "0")) (Some (str "https://www.banggood.com/b")) ].

(** Three rows of one category and one row without category, as handed to
    [create_derived_features]. *)
Definition shop_rows : list num_row :=
  [ mkRow (Some (str "Tools")) (Some (str "Drill")) (Fin 10) (Fin 4.8) (of_int 3) None;
    mkRow (Some (str "Tools")) (Some (str "Saw")) (Fin 20) (Fin 4.9) NaN None;
    mkRow (Some (str "Tools")) (Some (str "Vise")) NaN (Fin 3) (of_int 12) None;
    mkRow None (Some (str "Kite")) (Fin 5) (Fin 5) (of_int 1) None ].

Definition shop_derived : list drow :=
  Eval vm_compute in
    match create_derived_features shop_rows with
    | Ok t => t
    | Raise _ => []
    end.

Definition quarter_cleaned : list drow :=
  Eval vm_compute in
    match returned (clean_data quarter_row) with
    | Ok t => t
    | Raise _ => []
    end.

(** Two rows of one category; the cheaper one is rated 4.496. *)
Definition near_rows : list raw_row :=
  [ mkRow (Some (str "Tools")) (Some (str "Drill")) (CNum (Fin 10))
          (CNum (Fin 4.496)) (CNum (Fin 3)) (Some (str "https://www.banggood.com/a"));
    mkRow (Some (str "Tools")) (Some (str "Saw")) (CNum (Fin 30))
          (CNum (Fin 3)) (CNum (Fin 1)) (Some (str "https://www.banggood.com/b")) ].

(** Three rows of one category: prices 1.00, 1.01 and a missing one; the
    cheapest is rated 5. *)
Definition penny_rows : list raw_row :=
  [ mkRow (Some (str "Tools")) (Some (str "Drill")) (CNum (Fin 1.00))
          (CNum (Fin 5)) (CNum (Fin 3)) (Some (str "https://www.banggood.com/a"));
    mkRow (Some (str "Tools")) (Some (str "Saw")) (CNum (Fin 1.01))
          (CNum (Fin 3)) (CNum (Fin 1)) (Some (str "https://www.banggood.com/b"));
    mkRow (Some (str "Tools")) (Some (str "Vise")) (CNum NaN)
          (CNum (Fin 3)) (CNum (Fin 1)) (Some (str "https://www.banggood.com/c")) ].

Definition penny_cleaned : list drow :=
  Eval vm_compute in
    match returned (clean_data penny_rows) with
    | Ok t => t
    | Raise _ => []
    end.

(** A derived table with a missing price. *)
Definition holed_table : list drow :=
  [ mkDRow (mkRow (Some (str "Tools")) (Some (str "Drill")) NaN (Fin 4.8) 3%Z None)
           0%Z (Fin 1) ].

End Cleaner.

Import Scraper.
Import Cleaner.

(** ** Pagination discovery and the crawl of all categories ([scraper.py]) *)

Module Crawl.

Definition PAGES_PER_CATEGORY : Z := 5.

(** [try: return m  except: return default] *)
Definition recover {A} (m : exn A) (default : A) : A :=
  match m with
  | Ok a => a
  | Raise _ => default
  end.

(** The separator class of line 121: the equals sign or a white space. *)
Definition is_separator (c : char) : bool := (c =? 0x3D)%N || is_space c.

(** [re.search] for the pattern of line 121 with [re.I]: the word [page],
    any separators, then a run of digits, which is the group returned. *)
Fixpoint search_page_number (href : pystr) : option pystr :=
  match href with
  | [] => None
  | _ :: tl =>
      if starts_with_ci (str "page") href then
        match span is_digit (lstrip_by is_separator (skipn 4 href)) with
        | ((_ :: _) as run, _) => Some run
        | _ => search_page_number tl
        end
      else search_page_number tl
  end.

(** A pagination link: its [href] and its text. *)
Definition link := (pystr * pystr)%type.

(** Lines 118-126: the page number a link carries, from its [href] or,
    failing that, from its text; [int] raises on an over-long run. *)
Definition link_number (l : link) : exn (option Z) :=
  let page_match :=
    match search_page_number (fst l) with
    | Some m => Some m
    | None => search_digits (snd l)
    end in
  match page_match with
  | Some m =>
      match int_of_digits m with
      | Some page_num => Ok (Some page_num)
      | None => Raise ValueError
      end
  | None => Ok None
  end.

(** The loop of lines 117-127. *)
Fixpoint scan_links (page_links : list link) (max_page : Z) : exn Z :=
  match page_links with
  | [] => Ok max_page
  | l :: rest =>
      bind (link_number l) (fun n =>
        match n with
        | Some page_num => scan_links rest (Z.max max_page page_num)
        | None => scan_links rest max_page
        end)
  end.

(** What the first page of a category shows: loading or parsing it raises,
    or it has no pagination container, or the container has these links. *)
Definition first_page := exn (option (list link)).

(** [get_max_pages], lines 94-133. *)
Definition get_max_pages (page : first_page) : Z :=
  recover
    (bind page (fun pagination =>
       match pagination with
       | Some page_links =>
           bind (scan_links page_links 1) (fun max_page => Ok (Z.min max_page 50))
       | None => Ok PAGES_PER_CATEGORY
       end))
    PAGES_PER_CATEGORY.

(** One entry of [categories] with what the site answers: the first page
    as seen by [get_max_pages], and the browser for each page number. *)
Record site := mkSite {
  site_category : pystr;
  site_first : first_page;
  site_browser : nat -> driver }.

(** The page loop of lines 351-363 with [scrape_page] itself. *)
Fixpoint crawl_site (s : site) (pages : list nat) (fetched : list nat)
    (category_products : list raw_record) : exn (list nat * list raw_record) :=
  match pages with
  | [] => Ok (fetched, category_products)
  | page :: rest =>
      bind (snd (scrape_page (site_browser s page) (site_category s) 0))
        (fun products =>
           if (List.length products =? 0)%nat && (1 <? page)%nat
           then Ok (fetched ++ [page], category_products)
           else crawl_site s rest (fetched ++ [page]) (category_products ++ products))
  end.

(** Lines 341-348: [min(pages_per_category, max_pages)]; [get_max_pages]
    does not raise, so that the handler of line 346 is never entered. *)
Definition pages_to_scrape (pages_per_category : Z) (s : site) : Z :=
  Z.min pages_per_category (get_max_pages (site_first s)).

(** The loop over the categories, lines 337-366: the pages fetched for each
    category and [all_products]. *)
Fixpoint crawl_sites (pages_per_category : Z) (sites : list site)
    (log : list (list nat)) (all_products : list raw_record)
  : exn (list (list nat) * list raw_record) :=
  match sites with
  | [] => Ok (log, all_products)
  | s :: rest =>
      bind (crawl_site s (List.seq 1 (Z.to_nat (pages_to_scrape pages_per_category s))) [] [])
        (fun r => crawl_sites pages_per_category rest
                    (log ++ [fst r]) (all_products ++ snd r))
  end.

(** What the machine answers outside the pages: whether the browser
    starts ([get_driver], line 333), whether it closes ([driver.quit], line
    370), and whether the frame is built and written ([pd.DataFrame],
    [os.makedirs] and [to_csv], lines 374-379). *)
Record machine := mkMachine {
  get_driver : exn unit;
  driver_quit : exn unit;
  to_csv : list raw_record -> exn unit }.

(** [try: body  finally: handler]: the handler runs in every case, and its
    exception, if any, is the one that leaves. *)
Definition finally {A} (body : exn A) (handler : exn unit) : exn A :=
  match handler with
  | Ok _ => body
  | Raise e => Raise e
  end.

(** What a run of [main] leaves: the frame returned or the exception
    raised, the pages fetched for each category, whether [driver.quit] was
    called, and the rows written to [data/raw.csv], if any. *)
Record session := mkSession {
  frame_returned : exn (list raw_record);
  pages_fetched : list (list nat);
  browser_closed : bool;
  raw_csv : option (list raw_record) }.

(** [main], lines 319-383. *)
Definition main (pages_per_category : option Z) (m : machine) (sites : list site)
  : session :=
  let pages_per_category :=
    match pages_per_category with
    | Some n => n
    | None => PAGES_PER_CATEGORY
    end in
  match get_driver m with
  | Raise e => mkSession (Raise e) [] false None
  | Ok _ =>
      let crawled := crawl_sites pages_per_category sites [] [] in
      let log := match crawled with Ok r => fst r | Raise _ => [] end in
      match finally crawled (driver_quit m) with
      | Raise e => mkSession (Raise e) log true None
      | Ok r =>
          let all_products := snd r in
          match to_csv m all_products with
          | Ok _ => mkSession (Ok all_products) log true (Some all_products)
          | Raise e => mkSession (Raise e) log true None
          end
      end
  end.

(** The record is as [extract_block] builds it for [category]: non-empty
    name, and a link that is empty or absolute. *)
Definition well_formed (category : pystr) (r : raw_record) : Prop :=
  rec_category r = category /\
  rec_name r <> [] /\
  match rec_url r with
  | Some ((_ :: _) as u) => starts_with (str "http") u = true
  | _ => True
  end /\
  match rec_price r with
  | Some v => flt (Fin 0) v = true
  | None => True
  end /\
  match rec_rating r with
  | Some v => (fle (Fin 0) v && fle v (Fin 5)) = true
  | None => True
  end /\
  (0 <= rec_reviews r)%Z.

(** *** Sample data *)

Definition numbered_links : list link :=
  [ (str "/search/tools.html?page=2", str "2");
    (str "/search/tools.html?Page = 73", str "next");
    (str "#", str "4") ].

Definition overlong_links : list link :=
  [ (str "?page=2", str "2"); (str "#", List.repeat 0x39%N 4301) ].

Definition tools_site : site :=
  mkSite (str "Tools") (Ok (Some numbered_links)) (fun _ => late_driver).

(** A machine on which the browser starts and closes and the file is
    written, and one on which closing the browser fails. *)
Definition sound_machine : machine :=
  mkMachine (Ok tt) (Ok tt) (fun _ => Ok tt).

Definition stuck_machine : machine :=
  mkMachine (Ok tt) (Raise OtherError) (fun _ => Ok tt).

End Crawl.
Import Crawl.

(** ** Loading the cleaned table ([db_load.py]) *)

Module Loader.

(** A row of the frame read back from the cleaned file: texts, and numeric
    cells that may be missing. *)
Record csv_row := mkCsvRow {
  csv_Category : option pystr;
  csv_ProductName : option pystr;
  csv_Price : pyfloat;
  csv_Rating : pyfloat;
  csv_ReviewCount : pyfloat;
  csv_IsHighValue : pyfloat;
  csv_PricePerReview : pyfloat;
  csv_ProductURL : option pystr }.

(** The parameters of one [INSERT], line 159-168. *)
Record insert_params := mkParams {
  p_Category : pystr;
  p_ProductName : pystr;
  p_Price : pyfloat;
  p_Rating : pyfloat;
  p_ReviewCount : Z;
  p_IsHighValue : Z;
  p_PricePerReview : pyfloat;
  p_ProductURL : pystr }.

(** [int(x) if pd.notna(x) else 0] *)
Definition int_or_zero (x : pyfloat) : exn Z :=
  if notna x then int_of_float x else Ok 0%Z.

(** [float(x) if pd.notna(x) else 0.0] *)
Definition float_or_zero (x : pyfloat) : pyfloat :=
  if notna x then x else Fin 0.

(** Lines 142-168: the parameters prepared from one row. *)
Definition prepare_row (row : csv_row) : exn insert_params :=
  bind (int_or_zero (csv_IsHighValue row)) (fun is_high_value =>
  let is_high_value :=
    if (is_high_value =? 0)%Z || (is_high_value =? 1)%Z then is_high_value
    else if (is_high_value =? 0)%Z then 0%Z else 1%Z in
  let price := float_or_zero (csv_Price row) in
  let rating := float_or_zero (csv_Rating row) in
  bind (int_or_zero (csv_ReviewCount row)) (fun review_count =>
  let price_per_review := float_or_zero (csv_PricePerReview row) in
  let price := if isna price then Fin 0 else price in
  let price_per_review := if isna price_per_review then Fin 0 else price_per_review in
  Ok (mkParams (firstn 50 (astype_str (csv_Category row)))
               (firstn 255 (astype_str (csv_ProductName row)))
               price rating review_count is_high_value price_per_review
               (astype_str (csv_ProductURL row))))).

(** The loop of lines 140-172.  [execute] is [cursor.execute] on the
    insert statement: it succeeds or raises; the rows inserted so far and
    [inserted_count] are carried along. *)
Fixpoint insert_rows (execute : insert_params -> option exception)
    (rows : list csv_row) (table : list insert_params) (inserted_count : nat)
  : list insert_params * nat :=
  match rows with
  | [] => (table, inserted_count)
  | row :: rest =>
      match bind (prepare_row row) (fun p =>
              match execute p with
              | None => Ok p
              | Some e => Raise e
              end) with
      | Ok p => insert_rows execute rest (table ++ [p]) (S inserted_count)
      | Raise _ => insert_rows execute rest table inserted_count
      end
  end.

(** A cleaned row as a row of the loader's frame: the numeric cells as
    numbers, the texts as they are. *)
Definition written (d : drow) : csv_row :=
  mkCsvRow (Category d) (ProductName d) (Price d) (Rating d)
           (of_int (ReviewCount d)) (of_int (IsHighValue d))
           (PricePerReview d) (ProductURL d).

(** *** Sample data *)

Definition odd_row : csv_row :=
  mkCsvRow (Some (List.repeat 0x61%N 60)) None NaN (Fin 4.5) (Fin 2.9) (Fin 7)
           NaN (Some (str "https://www.banggood.com/p")).

Definition infinite_row : csv_row :=
  mkCsvRow (Some (str "Tools")) (Some (str "Saw")) (Fin 1) (Fin 4) PInf (Fin 0)
           (Fin 1) None.

End Loader.
Import Loader.

(** ** Further vocabulary of the properties *)

Module Vocabulary.

Definition infinite (x : pyfloat) : bool :=
  match x with
  | PInf | NInf => true
  | _ => false
  end.

Definition infinite_cell (c : cell) : bool :=
  match c with
  | CNum x => infinite x
  | CStr _ => false
  end.

(** A present text without surrounding white space. *)
Definition stripped (t : option pystr) : Prop :=
  exists s, t = Some s /\ strip s = s.

(** No text cell of the loaded row is missing. *)
Definition texts_present (r : raw_row) : Prop :=
  Category r <> None /\ ProductName r <> None /\ ProductURL r <> None.

(** Infinite, or a whole number of hundredths. *)
Definition two_decimals (x : pyfloat) : Prop :=
  infinite x = true \/ exists z, x = Fin (z # 100).

(** Not missing and not below zero. *)
Definition not_negative (x : pyfloat) : Prop :=
  x = PInf \/ exists q, x = Fin q /\ (0 <= q)%Q.

(** Half the magnitude at which a sum overflows: [2^1023 - 2^969]. *)
Definition half_overflow : Q := inject_Z (2 ^ 1023 - 2 ^ 969).

(** Below [half_overflow]: the sum of two values that do not exceed such a
    value is not plus infinity. *)
Definition below_overflow (x : pyfloat) : bool := flt x (Fin half_overflow).

(** The rows a run of the insert loop adds: those that are prepared and
    whose insert statement succeeds. *)
Definition accepted (execute : insert_params -> option exception)
    (rows : list csv_row) : list insert_params :=
  List.flat_map (fun row =>
    match prepare_row row with
    | Ok p => match execute p with None => [p] | Some _ => [] end
    | Raise _ => []
    end) rows.

(** *** Sample data *)

(** Loaded rows: a blank name, a missing name, an infinite review count. *)
Definition blank_name_rows : list raw_row :=
  [ mkRow (Some (str " Tools ")) (Some (str "   ")) (CNum (Fin 1)) (CNum (Fin 1))
          (CNum (Fin 1)) None;
    mkRow (Some (str " Tools ")) (Some (str " Saw ")) (CStr (str "-5")) (CNum (Fin 1))
          (CStr (str "7 reviews")) (Some (str " https://www.banggood.com/p ")) ].

Definition blank_name_cleaned : list drow :=
  Eval vm_compute in
    match returned (clean_data blank_name_rows) with
    | Ok t => t
    | Raise _ => []
    end.

(** Loaded rows without missing text: a blank name, and texts with
    surrounding blanks. *)
Definition padded_rows : list raw_row :=
  [ mkRow (Some (str " Tools ")) (Some (str "   ")) (CNum (Fin 1)) (CNum (Fin 1))
          (CNum (Fin 1)) (Some (str "https://www.banggood.com/a"));
    mkRow (Some (str " Tools ")) (Some (str " Saw ")) (CNum (Fin 5)) (CNum (Fin 1))
          (CStr (str "7 reviews")) (Some (str " https://www.banggood.com/p ")) ].

Definition padded_cleaned : list drow :=
  Eval vm_compute in
    match returned (clean_data padded_rows) with
    | Ok t => t
    | Raise _ => []
    end.

Definition infinite_count_rows : list raw_row :=
  [ mkRow (Some (str "Tools")) (Some (str "Saw")) (CNum (Fin 1)) (CNum (Fin 1))
          (CNum PInf) None ].

Definition infinite_count_frame : list num_row :=
  [ mkRow (Some (str "Tools")) (Some (str "Saw")) (Fin 1) (Fin 1) NInf None ].

Definition unpriced_rows : list num_row :=
  [ mkRow (Some (str "Tools")) (Some (str "Saw")) NaN (Fin 5) (of_int 2) None;
    mkRow (Some (str "Toys")) (Some (str "Kite")) NaN (Fin 5) NaN None ].

Definition unpriced_derived : list drow :=
  Eval vm_compute in
    match create_derived_features unpriced_rows with
    | Ok t => t
    | Raise _ => []
    end.

(** Two rows of one category with prices 1e308 and 1.2e308, rated 5. *)
Definition huge_rows : list num_row :=
  [ mkRow (Some (str "Tools")) (Some (str "Drill")) (Fin (inject_Z (10 ^ 308)))
          (Fin 5) (of_int 1) None;
    mkRow (Some (str "Tools")) (Some (str "Saw")) (Fin (inject_Z (12 * 10 ^ 307)))
          (Fin 5) (of_int 1) None ].

Definition odd_params : insert_params :=
  Eval vm_compute in
    match prepare_row odd_row with
    | Ok p => p
    | Raise _ => mkParams [] [] NaN NaN 0 0 NaN []
    end.

Definition page_73_link : link := (str "/search/tools.html?Page = 73", str "next").

Definition overlong_link : link := (str "#", List.repeat 0x39%N 4301).

End Vocabulary.
Import Vocabulary.

(** * Properties *)

(** ** Strings *)

Module PyStrFacts.

Local Open Scope N_scope.

Section Strip.
Variable p : char -> bool.

Lemma lstrip_by_head (s : pystr) :
  match lstrip_by p s with
  | c :: _ => p c = false
  | [] => True
  end.
Proof.
  induction s as [|c tl IH]; simpl; [exact I|].
  destruct (p c) eqn:E; [exact IH | exact E].
Qed.

Lemma rstrip_by_cons_keep (c : char) (tl : pystr) :
  p c = false -> exists r, rstrip_by p (c :: tl) = c :: r.
Proof.
  intros E. simpl. destruct (rstrip_by p tl) as [|x r].
  - rewrite E. now exists [].
  - now exists (x :: r).
Qed.

Lemma rstrip_by_idem (s : pystr) :
  rstrip_by p (rstrip_by p s) = rstrip_by p s.
Proof.
  induction s as [|c tl IH]; simpl; [reflexivity|].
  destruct (rstrip_by p tl) as [|x r] eqn:E.
  - destruct (p c) eqn:Ec; simpl; [reflexivity | now rewrite Ec].
  - change (rstrip_by p (c :: x :: r)) with
      (match rstrip_by p (x :: r) with
       | [] => if p c then [] else [c]
       | y :: r' => c :: y :: r'
       end).
    now rewrite IH.
Qed.

Lemma strip_by_idem (s : pystr) :
  strip_by p (strip_by p s) = strip_by p s.
Proof.
  unfold strip_by.
  pose proof (lstrip_by_head s) as H.
  destruct (lstrip_by p s) as [|c u] eqn:E; [reflexivity|].
  destruct (rstrip_by_cons_keep u H) as [r Hr].
  rewrite Hr. simpl lstrip_by. rewrite H.
  rewrite <- Hr. apply rstrip_by_idem.
Qed.

Lemma lstrip_by_Forall (P : char -> Prop) (s : pystr) :
  Forall P s -> Forall P (lstrip_by p s).
Proof.
  induction 1 as [|c tl Hc Htl IH]; simpl; [constructor|].
  destruct (p c); [exact IH | now constructor].
Qed.

Lemma rstrip_by_Forall (P : char -> Prop) (s : pystr) :
  Forall P s -> Forall P (rstrip_by p s).
Proof.
  induction 1 as [|c tl Hc Htl IH]; simpl; [constructor|].
  destruct (rstrip_by p tl) as [|x r].
  - destruct (p c); [constructor | now constructor].
  - now constructor.
Qed.

Lemma strip_by_Forall (P : char -> Prop) (s : pystr) :
  Forall P s -> Forall P (strip_by p s).
Proof.
  intros H. unfold strip_by. now apply rstrip_by_Forall, lstrip_by_Forall.
Qed.

End Strip.

Lemma replace_single (c : char) (new s : pystr) :
  replace [c] new s = flat_map (fun x => if c =? x then new else [x]) s.
Proof.
  unfold replace. induction s as [|x tl IH]; simpl; [reflexivity|].
  rewrite Bool.andb_true_r.
  destruct (c =? x); simpl; now rewrite IH.
Qed.

Lemma replace_single_Forall (P : char -> Prop) (c : char) (new s : pystr) :
  Forall P new -> Forall P s -> Forall P (replace [c] new s).
Proof.
  intros Hn Hs. rewrite replace_single.
  induction Hs as [|x tl Hx Htl IH]; simpl; [constructor|].
  apply Forall_app. split; [|exact IH].
  destruct (c =? x); [exact Hn | now constructor].
Qed.

Lemma replace_single_absent (c : char) (new s : pystr) :
  Forall (fun x => x <> c) new -> Forall (fun x => x <> c) (replace [c] new s).
Proof.
  intros Hn. rewrite replace_single.
  induction s as [|x tl IH]; simpl; [constructor|].
  apply Forall_app. split; [|exact IH].
  destruct (c =? x) eqn:E; [exact Hn|].
  constructor; [|constructor]. apply N.eqb_neq in E. congruence.
Qed.

Lemma replace_single_id (c : char) (new s : pystr) :
  Forall (fun x => x <> c) s -> replace [c] new s = s.
Proof.
  intros Hs. rewrite replace_single.
  induction Hs as [|x tl Hx Htl IH]; simpl; [reflexivity|].
  destruct (c =? x) eqn:E.
  - apply N.eqb_eq in E. congruence.
  - simpl. now rewrite IH.
Qed.

Lemma remove_class_Forall (P : char -> Prop) (cls : char -> bool) (s : pystr) :
  Forall P s -> Forall P (remove_class cls s).
Proof.
  intros H. unfold remove_class. apply Forall_forall. intros x Hx.
  apply filter_In in Hx. rewrite Forall_forall in H. now apply H.
Qed.

Lemma remove_class_absent (cls : char -> bool) (s : pystr) :
  Forall (fun x => cls x = false) (remove_class cls s).
Proof.
  unfold remove_class. apply Forall_forall. intros x Hx.
  apply filter_In in Hx. destruct Hx as [_ Hx]. now apply Bool.negb_true_iff.
Qed.

Lemma remove_class_id (cls : char -> bool) (s : pystr) :
  Forall (fun x => cls x = false) s -> remove_class cls s = s.
Proof.
  unfold remove_class. induction 1 as [|x tl Hx Htl IH]; simpl; [reflexivity|].
  now rewrite Hx, IH.
Qed.

End PyStrFacts.

(** ** Extractors *)

Module ScraperFacts.
Import PyStrFacts.

Local Open Scope N_scope.

Ltac keep_absent :=
  repeat first
    [ apply strip_by_Forall
    | apply remove_class_absent
    | apply remove_class_Forall
    | apply replace_single_absent; repeat constructor; discriminate
    | apply replace_single_Forall; [repeat constructor; discriminate|] ].

Lemma clean_text_scrubbed (s : pystr) : scrubbed (clean_text s).
Proof.
  destruct s as [|c tl]; [repeat split; constructor|].
  unfold clean_text, strip.
  repeat split; keep_absent.
Qed.

Lemma clean_text_stripped (s : pystr) : strip (clean_text s) = clean_text s.
Proof.
  destruct s as [|c tl]; [reflexivity|].
  unfold clean_text, strip. apply strip_by_idem.
Qed.

Lemma clean_text_fixed (t : pystr) :
  scrubbed t -> strip t = t -> clean_text t = t.
Proof.
  intros (H1 & H2 & H3 & H4 & H5 & H6 & H7) Hs.
  destruct t as [|c tl]; [reflexivity|].
  unfold clean_text. rewrite Hs.
  rewrite (@replace_single_id _ _ _ H1), (@replace_single_id _ _ _ H2),
    (@replace_single_id _ _ _ H3), (@replace_single_id _ _ _ H4),
    (@replace_single_id _ _ _ H5), (@replace_single_id _ _ _ H6).
  rewrite (@remove_class_id _ _ H7).
  exact Hs.
Qed.

(** C7. [clean_text] is idempotent: cleaning an already cleaned text leaves
    it unchanged, for every text. *)
Theorem clean_text_idempotent (s : pystr) :
  clean_text (clean_text s) = clean_text s.
Proof.
  apply clean_text_fixed.
  - apply clean_text_scrubbed.
  - apply clean_text_stripped.
Qed.

(** C4 (the code departs from the claim on the first example). The code
    removes the word [review(s)] and then takes the first run of digits
    without removing other characters: on [1,024 reviews] it returns 1, and
    on the empty text 0. *)
Theorem extract_review_count_examples :
  extract_review_count (str "1,024 reviews") = 1%Z /\
  extract_review_count (str "") = 0%Z.
Proof. split; vm_compute; reflexivity. Qed.

(** *** Page fetch *)

Local Open Scope nat_scope.

Lemma scrape_blocks_kept (category : pystr) (bs : list block) (acc : list raw_record) :
  scrape_blocks category bs acc = acc ++ kept category bs.
Proof.
  revert acc. induction bs as [|b rest IH]; intros acc; simpl.
  - now rewrite app_nil_r.
  - destruct (extract_block category b) as [[r|]|e]; simpl; rewrite IH.
    + now rewrite <- app_assoc.
    + reflexivity.
    + reflexivity.
Qed.

(** A block is kept only with a non-empty name (lines 239-242). *)
Lemma kept_names (category : pystr) (bs : list block) :
  Forall (fun r => rec_name r <> []) (kept category bs).
Proof.
  unfold kept. apply Forall_forall. intros r Hr.
  apply in_flat_map in Hr. destruct Hr as (b & _ & Hr).
  destruct b as [f|e]; simpl in Hr; [|contradiction].
  destruct (f_name f) as [[|c tl]|]; simpl in Hr; try contradiction.
  destruct Hr as [<-|[]]. discriminate.
Qed.

Lemma scrape_page_from_ok (d : driver) (category : pystr) (remaining retry_count : nat) :
  exists products, snd (scrape_page_from d category remaining retry_count) = Ok products.
Proof.
  destruct remaining as [|k]; simpl;
    destruct (get_raises (d retry_count)); simpl; try (now eexists);
    destruct (priced_marker (d retry_count) || price_marker (d retry_count)
              || block_marker (d retry_count)); simpl;
    try (destruct (page_blocks (d retry_count)); simpl; now eexists);
    try (now eexists).
  destruct (scrape_page_from d category k (S retry_count)) as [n [l|e]];
    simpl; now eexists.
Qed.

Lemma scrape_page_from_visits (d : driver) (category : pystr) (remaining retry_count : nat) :
  1 <= fst (scrape_page_from d category remaining retry_count) <= S remaining.
Proof.
  revert retry_count. induction remaining as [|k IH]; intros retry_count; simpl;
    destruct (get_raises (d retry_count)); simpl; try lia;
    destruct (priced_marker (d retry_count) || price_marker (d retry_count)
              || block_marker (d retry_count)); simpl; try lia.
  specialize (IH (S retry_count)).
  destruct (scrape_page_from d category k (S retry_count)) as [n r]. simpl in *. lia.
Qed.

Lemma scrape_page_from_quiet (d : driver) (category : pystr) (remaining retry_count : nat) :
  (forall n, retry_count <= n <= retry_count + remaining -> quiet (d n)) ->
  scrape_page_from d category remaining retry_count = (S remaining, Ok []).
Proof.
  revert retry_count. induction remaining as [|k IH]; intros retry_count H.
  - destruct (H retry_count ltac:(lia)) as (Hg & H1 & H2 & H3).
    simpl. now rewrite Hg, H1, H2, H3.
  - destruct (H retry_count ltac:(lia)) as (Hg & H1 & H2 & H3).
    simpl. rewrite Hg, H1, H2, H3. simpl.
    rewrite IH; [reflexivity|]. intros n Hn. apply H. lia.
Qed.

Lemma scrape_page_from_rendered (d : driver) (category : pystr)
    (remaining retry_count k : nat) (bs : list block) :
  k <= remaining ->
  (forall n, retry_count <= n < retry_count + k -> quiet (d n)) ->
  rendered (d (retry_count + k)) ->
  page_blocks (d (retry_count + k)) = Ok bs ->
  scrape_page_from d category remaining retry_count = (S k, Ok (kept category bs)).
Proof.
  revert remaining retry_count. induction k as [|k IH]; intros remaining retry_count Hk Hq Hr Hb.
  - rewrite Nat.add_0_r in Hr, Hb. destruct Hr as [Hg Hm].
    destruct remaining; simpl; rewrite Hg, Hm, Hb; simpl;
      now rewrite scrape_blocks_kept.
  - destruct remaining as [|remaining]; [lia|].
    destruct (Hq retry_count ltac:(lia)) as (Hg & H1 & H2 & H3).
    simpl. rewrite Hg, H1, H2, H3. simpl.
    rewrite (IH remaining (S retry_count)).
    + reflexivity.
    + lia.
    + intros n Hn. apply Hq. lia.
    + now replace (S retry_count + k) with (retry_count + S k) by lia.
    + now replace (S retry_count + k) with (retry_count + S k) by lia.
Qed.

(** C8. [scrape_page] always returns a list and never raises; it navigates
    at most once plus three retries; when no marker ever appears it returns
    the empty list after exactly three retries; and once a navigation
    renders, the result is the records of exactly the blocks that do not
    raise (and have a name), so that a raising block removes no other
    block's record. *)
Theorem scrape_page_never_raises (d : driver) (category : pystr) :
  (exists products, snd (scrape_page d category 0) = Ok products) /\
  fst (scrape_page d category 0) <= 1 + MAX_RETRIES_PER_PAGE /\
  ((forall n, n <= MAX_RETRIES_PER_PAGE -> quiet (d n)) ->
   scrape_page d category 0 = (1 + MAX_RETRIES_PER_PAGE, Ok [])) /\
  (forall k bs,
     k <= MAX_RETRIES_PER_PAGE ->
     (forall n, n < k -> quiet (d n)) ->
     rendered (d k) ->
     page_blocks (d k) = Ok bs ->
     scrape_page d category 0 = (1 + k, Ok (kept category bs))) /\
  (forall bs1 bs2 e,
     kept category (bs1 ++ Raise e :: bs2) = kept category bs1 ++ kept category bs2).
Proof.
  unfold scrape_page. rewrite Nat.sub_0_r.
  split; [apply scrape_page_from_ok|].
  split; [apply scrape_page_from_visits|].
  split.
  - intros H. apply scrape_page_from_quiet. intros n Hn. apply H. lia.
  - split.
    + intros k bs Hk Hq Hr Hb.
      apply (@scrape_page_from_rendered d category MAX_RETRIES_PER_PAGE 0 k bs); auto.
      intros n Hn. apply Hq. lia.
    + intros bs1 bs2 e. unfold kept. rewrite flat_map_app. reflexivity.
Qed.

(** *** Category crawl *)

Lemma crawl_pages_seq (scrape : nat -> list raw_record) (len a : nat)
    (fetched : list nat) (acc : list raw_record) :
  exists m,
    m <= len /\
    crawl_pages scrape (seq a len) fetched acc
      = (fetched ++ seq a m, acc ++ flat_map scrape (seq a m)) /\
    (forall k, a <= k -> S k < a + m -> 1 < k -> scrape k <> []) /\
    (m < len -> 1 <= m /\ 1 < a + m - 1 /\ scrape (a + m - 1) = []).
Proof.
  revert a fetched acc. induction len as [|len IH]; intros a fetched acc.
  - exists 0. simpl. rewrite !app_nil_r. repeat split; try lia.
  - simpl.
    destruct ((List.length (scrape a) =? 0) && (1 <? a)) eqn:E.
    + apply andb_prop in E. destruct E as [E1 E2].
      apply Nat.eqb_eq in E1. apply Nat.ltb_lt in E2.
      apply length_zero_iff_nil in E1.
      exists 1. simpl. rewrite E1. simpl. rewrite app_nil_r.
      repeat split; try lia.
      replace (a + 1 - 1) with a by lia. exact E1.
    + destruct (IH (S a) (fetched ++ [a]) (acc ++ scrape a)) as (m & Hm & Heq & Hnon & Hstop).
      exists (S m). rewrite Heq. simpl. rewrite <- !app_assoc. simpl.
      split; [lia|]. split; [reflexivity|]. split.
      * intros k Hk1 Hk2 Hk3.
        destruct (Nat.eq_dec k a) as [->|Hne].
        -- intros Hnil. rewrite Hnil in E. simpl in E.
           apply Nat.ltb_lt in Hk3. rewrite Hk3 in E. discriminate.
        -- apply Hnon; lia.
      * intros Hlt. destruct (Hstop ltac:(lia)) as (H1 & H2 & H3).
        replace (a + S m - 1) with (S a + m - 1) by lia.
        repeat split; try lia. exact H3.
Qed.

(** C9. In a category crawl over pages 1..n: the records collected are
    exactly those of the pages fetched, none is discarded; if a page beyond
    page 1 returns no record, no page after it is fetched; and page 1
    returning no record does not stop the crawl (page 2 is still fetched). *)
Theorem crawl_category_early_stop (scrape : nat -> list raw_record) (n : nat) :
  snd (crawl_category scrape n) = flat_map scrape (fst (crawl_category scrape n)) /\
  (forall k j, 1 < k -> scrape k = [] ->
     In j (fst (crawl_category scrape n)) -> j <= k) /\
  (forall j k, In k (fst (crawl_category scrape n)) -> 1 <= j <= k ->
     In j (fst (crawl_category scrape n))) /\
  (2 <= n -> In 2 (fst (crawl_category scrape n))).
Proof.
  unfold crawl_category.
  destruct (crawl_pages_seq scrape n 1 [] []) as (m & Hm & Heq & Hnon & Hstop).
  rewrite Heq. simpl.
  split; [reflexivity|]. split; [|split].
  - intros k j Hk Hnil Hj. apply in_seq in Hj.
    destruct (Nat.le_gt_cases j k) as [|Hgt]; [assumption|].
    exfalso. apply (Hnon k); try lia. exact Hnil.
  - intros j k Hk Hj. apply in_seq in Hk. apply in_seq. lia.
  - intros Hn. apply in_seq.
    destruct (Nat.le_gt_cases 2 m) as [|Hlt]; [lia|].
    destruct (Hstop ltac:(lia)) as (H1 & H2 & H3). lia.
Qed.

(** *** Instances *)

Lemma scrape_page_never_raises_witness :
  scrape_page blank_driver (str "Tools") 0 = (4, Ok []) /\
  scrape_page late_driver (str "Tools") 0 = (2, Ok [drill_record; drill_record]).
Proof.
  split.
  - apply (proj1 (proj2 (proj2 (scrape_page_never_raises blank_driver (str "Tools"))))).
    intros n _. repeat split.
  - apply (proj1 (proj2 (proj2 (proj2
             (scrape_page_never_raises late_driver (str "Tools"))))) 1
             [Ok drill_fields; Raise OtherError; Ok drill_fields]).
    + unfold MAX_RETRIES_PER_PAGE. lia.
    + intros n Hn. assert (n = 0) as -> by lia. repeat split.
    + split; reflexivity.
    + reflexivity.
Defined.

Lemma crawl_category_early_stop_witness :
  (forall j, In j (fst (crawl_category five_pages 5)) -> j <= 3) /\
  In 2 (fst (crawl_category five_pages 5)).
Proof.
  split.
  - intros j. apply (proj1 (proj2 (crawl_category_early_stop five_pages 5)) 3 j).
    + lia.
    + reflexivity.
  - apply (proj2 (proj2 (proj2 (crawl_category_early_stop five_pages 5)))). lia.
Defined.

Example crawl_five_pages :
  crawl_category five_pages 5 = ([1; 2; 3], [drill_record; drill_record]).
Proof. reflexivity. Qed.

End ScraperFacts.

(** ** Cleaning and derived features *)

Module CleanerFacts.

Local Open Scope nat_scope.

(** *** Lists and exceptions *)

Lemma mapM_Forall2 {A B} (f : A -> exn B) (l : list A) (l' : list B) :
  mapM f l = Ok l' -> Forall2 (fun x y => f x = Ok y) l l'.
Proof.
  revert l'. induction l as [|x tl IH]; intros l' H; simpl in H.
  - injection H as <-. constructor.
  - destruct (f x) as [y|e] eqn:E; simpl in H; [|discriminate].
    destruct (mapM f tl) as [r|e]; simpl in H; [|discriminate].
    injection H as <-. constructor; auto.
Qed.

Lemma mapM_total {A B} (f : A -> exn B) (l : list A) :
  Forall (fun x => exists y, f x = Ok y) l -> exists l', mapM f l = Ok l'.
Proof.
  induction 1 as [|x tl [y Hy] _ [r Hr]]; simpl.
  - now eexists.
  - rewrite Hy. simpl. rewrite Hr. simpl. now eexists.
Qed.

Lemma Forall2_map_fun {A B} (f : A -> B) (l : list A) :
  Forall2 (fun x y => y = f x) l (map f l).
Proof. induction l; simpl; constructor; auto. Qed.

Lemma Forall2_In_r {A B} (R : A -> B -> Prop) (l : list A) (l' : list B) (y : B) :
  Forall2 R l l' -> In y l' -> exists x, In x l /\ R x y.
Proof.
  induction 1 as [|a b tl tl' Hab _ IH]; intros Hin; [contradiction|].
  destruct Hin as [<-|Hin].
  - exists a. split; [now left | exact Hab].
  - destruct (IH Hin) as (x & Hx & HR). exists x. split; [now right | exact HR].
Qed.

(** *** Numbers *)

Lemma fillna_notna (v x : pyfloat) : notna v = true -> notna (fillna v x) = true.
Proof. unfold fillna. destruct x; simpl; auto. Qed.

Lemma round2_notna (x : pyfloat) : notna (round2 x) = notna x.
Proof. destruct x; reflexivity. Qed.

Lemma fdiv_count_notna (x : pyfloat) (n : positive) : notna (fdiv_count x n) = notna x.
Proof. destruct x; reflexivity. Qed.

Lemma flt_irrefl (x : pyfloat) : flt x x = false.
Proof.
  destruct x as [| | |q]; try reflexivity.
  simpl. unfold Qlt_bool. apply Bool.negb_false_iff.
  apply Qle_bool_iff. apply Qle_refl.
Qed.

Lemma astype_int_of_int (n : Z) : astype_int (fillna (of_int 0) (of_int n)) = Ok n.
Proof. simpl. now rewrite Z.quot_1_r. Qed.

(** *** Heap *)

Lemma nth_error_snoc {A} (h : list A) (f : A) : nth_error (h ++ [f]) (List.length h) = Some f.
Proof. induction h; simpl; auto. Qed.

Lemma store_snoc (h : heap) (f f' : frame) : store (h ++ [f]) (List.length h) f' = h ++ [f'].
Proof. induction h as [|x tl IH]; simpl; [reflexivity | now rewrite IH]. Qed.

Lemma assign_snoc (step : frame -> exn frame) (h : heap) (f : frame) :
  assign step (h ++ [f]) (List.length h) =
  match step f with
  | Ok f' => (h ++ [f'], Ok tt)
  | Raise e => (h ++ [f], Raise e)
  end.
Proof.
  unfold assign. rewrite nth_error_snoc.
  destruct (step f); [now rewrite store_snoc | reflexivity].
Qed.

(** The run of [create_derived_features] on the heap: the frame objects
    already there are left as they were, and the returned object holds the
    frame the function computes. *)
Lemma create_derived_features_at_spec (h : heap) (df : nat) (t : list num_row) :
  nth_error h df = Some (Cleaned t) ->
  create_derived_features_at h df =
  match create_derived_features t with
  | Ok d => (h ++ [Derived d], Ok (List.length h))
  | Raise e => (h ++ [Cleaned t], Raise e)
  end.
Proof.
  intros Hdf. unfold create_derived_features_at, copy. rewrite Hdf.
  unfold create_derived_features, statements, run.
  rewrite assign_snoc. simpl on_cleaned.
  destruct (fill_review_count t) as [t1|e]; simpl; [|reflexivity].
  repeat (rewrite assign_snoc; simpl).
  reflexivity.
Qed.

(** *** Shape of the derived frame *)

Lemma create_derived_features_inv (df : list num_row) (out : list drow) :
  create_derived_features df = Ok out ->
  exists t1,
    fill_review_count df = Ok t1 /\
    let t := fill_price_overall (fill_price_by_category (fill_rating t1)) in
    out = map (derive (category_medians t)) t.
Proof.
  unfold create_derived_features. intros H.
  destruct (fill_review_count df) as [t1|e]; simpl in H; [|discriminate].
  injection H as <-. exists t1. split; [reflexivity|].
  unfold add_price_per_review, add_is_high_value. rewrite map_map. reflexivity.
Qed.

Lemma fill_review_count_rows (df : list num_row) (t1 : list int_row) :
  fill_review_count df = Ok t1 ->
  Forall2 (fun r r1 =>
    Category r1 = Category r /\ ProductName r1 = ProductName r /\
    ProductURL r1 = ProductURL r /\ Price r1 = Price r /\ Rating r1 = Rating r /\
    astype_int (fillna (of_int 0) (ReviewCount r)) = Ok (ReviewCount r1)) df t1.
Proof.
  intros H. apply mapM_Forall2 in H.
  induction H as [|r r1 tl tl' Hr _ IH]; constructor; [|exact IH].
  destruct (astype_int (fillna (of_int 0) (ReviewCount r))) as [n|e]; simpl in Hr; [|discriminate].
  injection Hr as <-. simpl. auto 10.
Qed.

(** A column that the two price fills do not assign. *)
Lemma price_fills_keep {X} (t : list int_row) (proj : int_row -> X) :
  (forall p r, proj (set_Price p r) = proj r) ->
  map proj (fill_price_overall (fill_price_by_category t)) = map proj t.
Proof.
  intros HP. unfold fill_price_overall, fill_price_by_category.
  rewrite !map_map. apply map_ext. intros r. now rewrite !HP.
Qed.

(** A column that neither the price fills nor the rating fill assign. *)
Lemma fills_text {X} (t1 : list int_row) (proj : int_row -> X) :
  (forall p r, proj (set_Price p r) = proj r) ->
  (forall x r, proj (set_Rating x r) = proj r) ->
  map proj (fill_price_overall (fill_price_by_category (fill_rating t1))) = map proj t1.
Proof.
  intros HP HR. rewrite (price_fills_keep _ proj HP).
  unfold fill_rating. rewrite map_map. apply map_ext. intros r. apply HR.
Qed.

Lemma Forall2_map_eq {A B C} (f : A -> C) (g : B -> C) (l : list A) (l' : list B) :
  Forall2 (fun x y => g y = f x) l l' -> map g l' = map f l.
Proof. induction 1; simpl; congruence. Qed.

Lemma derived_text_column (df : list num_row) (out : list drow)
    (proj : forall V C, row V C -> option pystr) :
  (forall C p (r : row pyfloat C), proj _ _ (set_Price p r) = proj _ _ r) ->
  (forall C x (r : row pyfloat C), proj _ _ (set_Rating x r) = proj _ _ r) ->
  (forall C D (n : D) (r : row pyfloat C), proj _ _ (set_ReviewCount n r) = proj _ _ r) ->
  create_derived_features df = Ok out ->
  map (fun d : drow => proj _ _ d) out = map (proj _ _) df.
Proof.
  intros HP HR HC H.
  destruct (@create_derived_features_inv _ _ H) as (t1 & H1 & ->). cbv zeta.
  transitivity (map (proj pyfloat Z)
                  (fill_price_overall (fill_price_by_category (fill_rating t1)))).
  { rewrite map_map. apply map_ext. reflexivity. }
  rewrite (fills_text t1 (proj _ _) (HP _) (HR _)).
  clear H. apply mapM_Forall2 in H1. apply Forall2_map_eq.
  induction H1 as [|r r1 tl tl' Hr _ IH]; constructor; [|exact IH].
  destruct (astype_int (fillna (of_int 0) (ReviewCount r))); simpl in Hr; [|discriminate].
  injection Hr as <-. apply HC.
Qed.

(** C10. [create_derived_features] leaves every frame object that existed
    before the call as it was, in particular its argument, whether it
    returns or raises; the frame it returns is a new object with the same
    number of rows, whose [Category], [ProductName] and [ProductURL]
    columns are those of the argument, row by row. *)
Theorem create_derived_features_frame (h : heap) (df : nat) (t : list num_row) :
  nth_error h df = Some (Cleaned t) ->
  (forall a, a < List.length h ->
     nth_error (fst (create_derived_features_at h df)) a = nth_error h a) /\
  nth_error (fst (create_derived_features_at h df)) df = Some (Cleaned t) /\
  (forall res, snd (create_derived_features_at h df) = Ok res ->
     res <> df /\
     exists out,
       nth_error (fst (create_derived_features_at h df)) res = Some (Derived out) /\
       create_derived_features t = Ok out /\
       List.length out = List.length t /\
       map (fun d : drow => Category d) out = map (@Category _ _) t /\
       map (fun d : drow => ProductName d) out = map (@ProductName _ _) t /\
       map (fun d : drow => ProductURL d) out = map (@ProductURL _ _) t).
Proof.
  intros Hdf.
  assert (Hlt : df < List.length h) by (apply nth_error_Some; congruence).
  rewrite (create_derived_features_at_spec h df Hdf).
  assert (Hold : forall (x : frame) a, a < List.length h ->
            nth_error (h ++ [x]) a = nth_error h a)
    by (intros x a Ha; now apply nth_error_app1).
  destruct (create_derived_features t) as [out|e] eqn:E; simpl.
  - split; [apply Hold|]. split; [now rewrite Hold|].
    intros res Hres. injection Hres as <-. split; [lia|].
    exists out. split; [apply nth_error_snoc|]. split; [reflexivity|].
    pose proof (@derived_text_column t out (@Category) ltac:(reflexivity)
                  ltac:(reflexivity) ltac:(reflexivity) E) as HC.
    pose proof (@derived_text_column t out (@ProductName) ltac:(reflexivity)
                  ltac:(reflexivity) ltac:(reflexivity) E) as HN.
    pose proof (@derived_text_column t out (@ProductURL) ltac:(reflexivity)
                  ltac:(reflexivity) ltac:(reflexivity) E) as HU.
    split; [|auto].
    apply (f_equal (@List.length _)) in HC. now rewrite !length_map in HC.
  - split; [apply Hold|]. split; [now rewrite Hold|].
    intros res Hres. discriminate.
Qed.

(** *** The high-value flag *)

Lemma series_get_map (F : pystr -> pyfloat) (cats : list pystr) (c : pystr) (dflt : pyfloat) :
  In c cats -> series_get (map (fun k => (k, F k)) cats) (Some c) dflt = F c.
Proof.
  induction cats as [|k tl IH]; intros Hin; [contradiction|].
  simpl. destruct (pystr_eq_dec c k) as [->|Hne]; [reflexivity|].
  destruct Hin as [->|Hin]; [congruence | now apply IH].
Qed.

Lemma series_get_None (s : list (pystr * pyfloat)) (dflt : pyfloat) :
  series_get s None dflt = dflt.
Proof. destruct s as [|[k v] tl]; reflexivity. Qed.

Lemma in_categories {V C} (df : list (row V C)) (r : row V C) (c : pystr) :
  In r df -> Category r = Some c -> In c (categories df).
Proof.
  intros Hin Hc. unfold categories. apply nodup_In. apply in_flat_map.
  exists r. split; [exact Hin|]. rewrite Hc. now left.
Qed.

Lemma category_medians_get (t : list int_row) (r : int_row) :
  In r t ->
  series_get (category_medians t) (Category r) (Price r) =
  match Category r with
  | Some c => median (group_prices t c)
  | None => Price r
  end.
Proof.
  intros Hin. destruct (Category r) as [c|] eqn:Hc.
  - unfold category_medians.
    apply (series_get_map (fun c => median (group_prices t c))).
    now apply (in_categories t r).
  - apply series_get_None.
Qed.

Lemma group_prices_derive (M : list (pystr * pyfloat)) (t : list int_row) (c : pystr) :
  map (fun x : drow => Price x)
      (filter (fun x : drow => in_category c x) (map (derive M) t))
  = group_prices t c.
Proof.
  unfold group_prices. induction t as [|r tl IH]; simpl; [reflexivity|].
  destruct (in_category c r); simpl; now rewrite IH.
Qed.

Lemma calculate_is_high_value_flag (M : list (pystr * pyfloat)) (r : int_row) :
  calculate_is_high_value M r =
  if fle (Fin 4.5) (Rating r) &&
     flt (Price r)
         (if isna (series_get M (Category r) (Price r)) then Price r
          else series_get M (Category r) (Price r))
  then 1%Z else 0%Z.
Proof.
  unfold calculate_is_high_value.
  destruct (Rating r) as [| | |x]; cbn [isna orb]; try reflexivity;
    destruct (Price r) as [| | |y]; cbn [isna orb]; try reflexivity;
    now rewrite Bool.andb_false_r.
Qed.

Lemma reference_median_derive (t : list int_row) (r : int_row) :
  In r t ->
  reference_median (map (derive (category_medians t)) t) (derive (category_medians t) r)
  = if isna (series_get (category_medians t) (Category r) (Price r)) then Price r
    else series_get (category_medians t) (Category r) (Price r).
Proof.
  intros Hr. unfold reference_median, category_median_of.
  rewrite (category_medians_get t r Hr).
  change (Category (derive (category_medians t) r)) with (Category r).
  change (Price (derive (category_medians t) r)) with (Price r).
  destruct (Category r) as [c|].
  - now rewrite group_prices_derive.
  - cbn [isna]. now destruct (isna (Price r)).
Qed.

(** The flag on the frame that [create_derived_features] returns, for
    every row: [IsHighValue] is 0 or 1, and it is 1 exactly when
    [Rating >= 4.5] and [Price] is strictly below the median of the
    (post-imputation) prices of the rows of its category; a row whose
    category median is undefined is compared with its own price and is
    flagged 0. *)
Lemma is_high_value_iff (df : list num_row) (out : list drow) :
  create_derived_features df = Ok out ->
  Forall (fun d : drow =>
    (IsHighValue d = 1%Z \/ IsHighValue d = 0%Z) /\
    (IsHighValue d = 1%Z <->
       fle (Fin 4.5) (Rating d) = true /\
       flt (Price d) (reference_median out d) = true) /\
    (isna (category_median_of out d) = true -> IsHighValue d = 0%Z)) out.
Proof.
  intros H. destruct (@create_derived_features_inv _ _ H) as (t1 & _ & Hout).
  cbv zeta in Hout. clear H.
  set (t := fill_price_overall (fill_price_by_category (fill_rating t1))) in *.
  subst out. apply Forall_forall. intros d Hd.
  apply in_map_iff in Hd. destruct Hd as (r & <- & Hr).
  assert (Hundef : isna (category_median_of (map (derive (category_medians t)) t)
                           (derive (category_medians t) r)) = true ->
                   reference_median (map (derive (category_medians t)) t)
                     (derive (category_medians t) r) = Price r).
  { unfold reference_median. now intros ->. }
  rewrite (reference_median_derive t r Hr) in *.
  change (IsHighValue (derive (category_medians t) r))
    with (calculate_is_high_value (category_medians t) r).
  change (Rating (derive (category_medians t) r)) with (Rating r).
  change (Price (derive (category_medians t) r)) with (Price r) in *.
  rewrite calculate_is_high_value_flag.
  destruct (fle (Fin 4.5) (Rating r)) eqn:E1; cbn [andb].
  - destruct (flt (Price r) _) eqn:E2.
    + split; [now left|]. split; [tauto|].
      intros Hu. rewrite (Hundef Hu), flt_irrefl in E2. discriminate.
    + split; [now right|]. split; [|reflexivity].
      split; [discriminate | intros [_ ?]; discriminate].
  - split; [now right|]. split; [|reflexivity].
    split; [discriminate | intros [? _]; discriminate].
Qed.

(** *** [clean_data] *)

Lemma forallb_andb {A} (f g : A -> bool) (l : list A) :
  forallb (fun x => f x && g x) l = forallb f l && forallb g l.
Proof.
  induction l as [|x tl IH]; simpl; [reflexivity|].
  rewrite IH. destruct (f x), (g x), (forallb f tl); reflexivity.
Qed.

Lemma forallb_true {A} (l : list A) : forallb (fun _ => true) l = true.
Proof. induction l; simpl; auto. Qed.

Lemma validate_spec (t : list drow) :
  validate t = if forallb complete t then Ok tt else Raise AssertionError.
Proof.
  unfold validate, complete, assert.
  rewrite !forallb_andb, forallb_true.
  destruct (forallb (fun d : drow => notna (Price d)) t),
           (forallb (fun d : drow => notna (PricePerReview d)) t),
           (forallb (fun d : drow => notna (Rating d)) t); reflexivity.
Qed.

Lemma clean_data_spec (df : list raw_row) :
  clean_data df =
  match prepare df with
  | Ok t => if forallb complete t then mkOutcome (Ok t) (Some t)
            else mkOutcome (Raise AssertionError) None
  | Raise e => mkOutcome (Raise e) None
  end.
Proof.
  unfold clean_data, finish. destruct (prepare df) as [t|e]; [|reflexivity].
  rewrite validate_spec. now destruct (forallb complete t).
Qed.

Lemma prepare_inv (df : list raw_row) (out : list drow) :
  prepare df = Ok out ->
  exists t pre,
    clean_columns df = Ok t /\
    create_derived_features (drop_nameless t) = Ok pre /\
    out = map round_row pre.
Proof.
  unfold prepare. intros H.
  destruct (clean_columns df) as [t|e]; simpl in H; [|discriminate].
  destruct (create_derived_features (drop_nameless t)) as [pre|e] eqn:E;
    simpl in H; [|discriminate].
  injection H as <-. now exists t, pre.
Qed.

Lemma clean_data_returned (df : list raw_row) (out : list drow) :
  returned (clean_data df) = Ok out ->
  prepare df = Ok out /\ forallb complete out = true /\ saved (clean_data df) = Some out.
Proof.
  rewrite clean_data_spec. destruct (prepare df) as [t|e]; simpl; [|discriminate].
  destruct (forallb complete t) eqn:E; simpl; [|discriminate].
  intros H. injection H as <-. auto.
Qed.

Lemma finish_spec (t : list drow) :
  finish t = if forallb complete t then mkOutcome (Ok t) (Some t)
             else mkOutcome (Raise AssertionError) None.
Proof. unfold finish. rewrite validate_spec. now destruct (forallb complete t). Qed.

Lemma returned_rows_complete (df : list raw_row) (out : list drow) :
  returned (clean_data df) = Ok out ->
  Forall (fun d : drow =>
    isna (Price d) = false /\ isna (Rating d) = false /\
    isna (PricePerReview d) = false) out.
Proof.
  intros H. destruct (@clean_data_returned _ _ H) as (_ & Hc & _).
  apply Forall_forall. intros d Hd.
  rewrite forallb_forall in Hc. specialize (Hc d Hd).
  unfold complete, notna in Hc.
  destruct (isna (Price d)), (isna (Rating d)), (isna (PricePerReview d));
    try discriminate; auto.
Qed.

(** C1. Whenever [clean_data] returns a table, that table is also the one
    saved and has no missing [Price], [Rating] or [PricePerReview]
    ([ReviewCount] is an integer column and holds no missing value).  The
    table obtained after cleaning, derivation and rounding goes through the
    final validation, and a table with a missing value in one of these
    columns makes the validation raise [AssertionError]: nothing is then
    returned or saved. *)
Theorem clean_data_no_nulls (df : list raw_row) :
  (forall out, returned (clean_data df) = Ok out ->
     saved (clean_data df) = Some out /\
     Forall (fun d : drow =>
       isna (Price d) = false /\ isna (Rating d) = false /\
       isna (PricePerReview d) = false) out) /\
  (forall t, prepare df = Ok t -> clean_data df = finish t) /\
  (forall t,
     Exists (fun d : drow =>
       isna (Price d) = true \/ isna (Rating d) = true \/
       isna (PricePerReview d) = true) t ->
     finish t = mkOutcome (Raise AssertionError) None).
Proof.
  split; [|split].
  - intros out H. destruct (@clean_data_returned _ _ H) as (_ & _ & Hs).
    split; [exact Hs | now apply returned_rows_complete with df].
  - intros t Ht. unfold clean_data. now rewrite Ht.
  - intros t Hex. rewrite finish_spec.
    assert (E : forallb complete t = false).
    { apply Exists_exists in Hex. destruct Hex as (d & Hd & Hnull).
      destruct (forallb complete t) eqn:E; [|reflexivity].
      rewrite forallb_forall in E. specialize (E d Hd).
      unfold complete, notna in E.
      destruct Hnull as [Hn|[Hn|Hn]]; rewrite Hn in E; simpl in E;
        try discriminate;
        destruct (isna (Price d)); simpl in E; try discriminate;
        destruct (isna (PricePerReview d)); discriminate. }
    now rewrite E.
Qed.

(** The rows of the derived frame, before rounding. *)
Lemma derived_rows (df : list num_row) (pre : list drow) :
  create_derived_features df = Ok pre ->
  Forall (fun p : drow =>
    notna (Price p) = true /\ notna (Rating p) = true /\
    PricePerReview p = fdiv_count (Price p) (Z.to_pos (Z.max (ReviewCount p) 1)) /\
    exists r, In r df /\ Rating p = fillna (Fin 0) (Rating r)) pre.
Proof.
  intros H. destruct (@create_derived_features_inv _ _ H) as (t1 & H1 & ->).
  cbv zeta. clear H.
  set (M := category_medians _). clearbody M.
  apply Forall_forall. intros p Hp. apply in_map_iff in Hp.
  destruct Hp as (r & <- & Hr).
  change (Price (derive M r)) with (Price r).
  change (Rating (derive M r)) with (Rating r).
  change (PricePerReview (derive M r)) with (price_per_review r).
  change (ReviewCount (derive M r)) with (ReviewCount r).
  assert (HR : In (Rating r) (map (fun x : int_row => Rating x) (fill_rating t1))).
  { rewrite <- (price_fills_keep (fill_rating t1) (fun x : int_row => Rating x))
      by reflexivity.
    now apply (in_map (fun x : int_row => Rating x)). }
  unfold fill_rating in HR. rewrite map_map in HR. apply in_map_iff in HR.
  destruct HR as (r1 & HRr & Hr1). simpl in HRr.
  destruct (@Forall2_In_r _ _ _ _ _ r1 (fill_review_count_rows df H1) Hr1) as (r0 & Hr0 & Hrel).
  destruct Hrel as (_ & _ & _ & _ & Hrat & _).
  split; [|split; [|split]].
  - unfold fill_price_overall in Hr. apply in_map_iff in Hr.
    destruct Hr as (x & <- & _). simpl. apply fillna_notna.
    now destruct (median _).
  - rewrite <- HRr. now apply fillna_notna.
  - reflexivity.
  - exists r0. split; [exact Hr0|]. now rewrite <- HRr, Hrat.
Qed.

(** The validation of lines 150-153 never fails. *)
Lemma prepare_complete (df : list raw_row) (t : list drow) :
  prepare df = Ok t -> forallb complete t = true.
Proof.
  intros H. destruct (@prepare_inv _ _ H) as (t0 & pre & _ & Hpre & ->).
  apply forallb_forall. intros d Hd. apply in_map_iff in Hd.
  destruct Hd as (p & <- & Hp).
  pose proof (derived_rows _ Hpre) as HF. rewrite Forall_forall in HF.
  destruct (HF p Hp) as (HP & HR & HPPR & _).
  unfold complete, round_row. simpl.
  rewrite !round2_notna, HP, HR, HPPR, fdiv_count_notna, HP. reflexivity.
Qed.

Lemma clean_review_count_total (c : cell) :
  c <> CNum PInf -> c <> CNum NInf -> exists n, clean_review_count c = Ok n.
Proof.
  intros H1 H2. destruct c as [[| | |q]|s]; simpl; try congruence; try (now eexists).
  destruct (search_digits s) as [m|]; [|now eexists].
  destruct (int_of_digits m); now eexists.
Qed.

(** [clean_data] returns (and saves) a table for every loaded frame whose
    [ReviewCount] column holds no infinite number. *)
Lemma clean_data_returns (df : list raw_row) :
  Forall (fun r : raw_row => ReviewCount r <> CNum PInf /\ ReviewCount r <> CNum NInf) df ->
  exists out, clean_data df = mkOutcome (Ok out) (Some out).
Proof.
  intros Hdf. rewrite clean_data_spec.
  assert (Hc : exists t, clean_columns df = Ok t /\
                 Forall (fun r : num_row => exists n, ReviewCount r = of_int n) t).
  { clear -Hdf. induction Hdf as [|r tl [H1 H2] _ (t & Ht & HF)].
    - exists []. split; [reflexivity | constructor].
    - destruct (clean_review_count_total H1 H2) as [n Hn].
      unfold clean_columns in *. simpl. rewrite Hn. simpl. rewrite Ht. simpl.
      eexists. split; [reflexivity|]. constructor; [|exact HF].
      simpl. now exists n. }
  destruct Hc as (t & Ht & HF).
  assert (Hd : exists pre, create_derived_features (drop_nameless t) = Ok pre).
  { unfold create_derived_features.
    assert (Hf : exists t1, fill_review_count (drop_nameless t) = Ok t1).
    { apply mapM_total. apply Forall_forall. intros r Hr.
      apply filter_In in Hr. destruct Hr as [Hr _].
      rewrite Forall_forall in HF. destruct (HF r Hr) as [n Hn].
      rewrite Hn, astype_int_of_int. simpl. now eexists. }
    destruct Hf as [t1 Ht1]. rewrite Ht1. simpl. now eexists. }
  destruct Hd as [pre Hpre].
  assert (Hp : prepare df = Ok (map round_row pre)).
  { unfold prepare. rewrite Ht. simpl. rewrite Hpre. reflexivity. }
  rewrite Hp, (prepare_complete df Hp). now eexists.
Qed.

(** *** Price per review *)

Lemma Forall_Forall2_map {A B} (P : A -> Prop) (f : A -> B) (l : list A) :
  Forall P l -> Forall2 (fun x y => P x /\ y = f x) l (map f l).
Proof. induction 1; simpl; constructor; auto. Qed.

(** C2, as stated, fails: for a row of price 0.254 with two reviews the
    cleaned table holds [Price = 0.25] and [PricePerReview = 0.13], while
    [round(0.25 / max(2, 1), 2)] is 0.12. *)
Lemma price_per_review_not_of_final_price :
  exists out d,
    returned (clean_data quarter_row) = Ok out /\ In d out /\
    feq (PricePerReview d)
        (round2 (fdiv_count (Price d) (Z.to_pos (Z.max (ReviewCount d) 1)))) = false.
Proof.
  eexists. eexists. split; [vm_compute; reflexivity|].
  split; [left; reflexivity|]. vm_compute. reflexivity.
Qed.

(** C2, amended. For every row of the final table, [PricePerReview] is
    [round(P / max(ReviewCount, 1), 2)], where [P] is the row's price after
    imputation and before the final rounding (the final [Price] is
    [round(P, 2)]) and [ReviewCount] is the row's final value. *)
Theorem price_per_review_of_unrounded_price (df : list raw_row) (out : list drow) :
  returned (clean_data df) = Ok out ->
  exists t pre,
    clean_columns df = Ok t /\
    create_derived_features (drop_nameless t) = Ok pre /\
    Forall2 (fun p d : drow =>
      Price d = round2 (Price p) /\
      ReviewCount d = ReviewCount p /\
      PricePerReview d =
        round2 (fdiv_count (Price p) (Z.to_pos (Z.max (ReviewCount d) 1)))) pre out.
Proof.
  intros H. destruct (@clean_data_returned _ _ H) as (Hp & _ & _).
  destruct (@prepare_inv _ _ Hp) as (t & pre & Ht & Hpre & ->).
  exists t, pre. split; [exact Ht|]. split; [exact Hpre|].
  pose proof (Forall_Forall2_map round_row (derived_rows _ Hpre)) as HF.
  revert HF. apply Forall2_impl.
  intros p d [(_ & _ & HPPR & _) ->].
  unfold round_row. simpl. now rewrite HPPR.
Qed.

(** *** Row elimination *)

(** The name column of the table returned by [clean_data]: the stripped
    texts of the loaded names as [astype_str] renders them, without those
    that are empty. No other row is removed. *)
Lemma clean_data_names (df : list raw_row) (out : list drow) :
  returned (clean_data df) = Ok out ->
  map (fun d : drow => ProductName d) out =
  map (@Some pystr)
      (filter (fun name => match name with [] => false | _ => true end)
              (map (fun r : raw_row => strip (astype_str (ProductName r))) df)).
Proof.
  intros H. destruct (@clean_data_returned _ _ H) as (Hp & _ & _).
  destruct (@prepare_inv _ _ Hp) as (t & pre & Ht & Hpre & ->).
  rewrite map_map.
  transitivity (map (fun d : drow => ProductName d) pre);
    [apply map_ext; reflexivity|].
  rewrite (@derived_text_column (drop_nameless t) pre (@ProductName)
             ltac:(reflexivity) ltac:(reflexivity) ltac:(reflexivity) Hpre).
  clear -Ht. apply mapM_Forall2 in Ht. unfold drop_nameless.
  induction Ht as [|r r0 tl tl' Hr _ IH]; simpl; [reflexivity|].
  destruct (clean_review_count (ReviewCount r)); simpl in Hr; [|discriminate].
  injection Hr as <-. unfold has_name at 1. simpl.
  destruct (strip (astype_str (ProductName r))); simpl; now rewrite IH.
Qed.

(** C5 (the code departs from the claim). A row whose product name is
    missing is not dropped: it appears in the cleaned table under the name
    [nan]. *)
Theorem clean_data_keeps_missing_name :
  exists d,
    returned (clean_data nameless_row) = Ok [d] /\
    ProductName d = Some (str "nan").
Proof. eexists. split; vm_compute; reflexivity. Qed.

(** *** Rating *)

Lemma round_half_even_bounds (q : Q) (lo hi : Z) :
  (inject_Z lo <= q)%Q -> (q <= inject_Z hi)%Q ->
  (lo <= round_half_even q <= hi)%Z.
Proof.
  destruct q as [n d]. unfold Qle, round_half_even. cbn [Qnum Qden inject_Z].
  rewrite !Z.mul_1_r. intros Hlo Hhi.
  pose proof (Z.div_mod n (Zpos d) ltac:(lia)) as Hdm.
  pose proof (Z.mod_pos_bound n (Zpos d) ltac:(lia)) as Hr.
  set (k := (n / Zpos d)%Z) in *. set (r := (n mod Zpos d)%Z) in *.
  assert (Hk1 : (lo <= k)%Z) by nia.
  assert (Hk2 : (k <= hi)%Z) by nia.
  assert (Hk3 : (0 < r -> k + 1 <= hi)%Z) by (intros; nia).
  destruct (2 * r ?= Zpos d)%Z eqn:E.
  - apply Z.compare_eq in E. destruct (Z.even k); lia.
  - lia.
  - rewrite Z.compare_gt_iff in E. lia.
Qed.

Lemma round2_in_0_5 (x : pyfloat) : in_0_5 x = true -> in_0_5 (round2 x) = true.
Proof.
  unfold in_0_5. destruct x as [| | |q]; simpl; try discriminate.
  intros H. apply andb_prop in H. destruct H as [H0 H5].
  apply Qle_bool_iff in H0, H5.
  assert (Hb : (0 <= round_half_even (q * 100) <= 500)%Z).
  { apply round_half_even_bounds.
    - change (inject_Z 0) with (0 * 100)%Q. now apply Qmult_le_compat_r.
    - change (inject_Z 500) with (5 * 100)%Q. now apply Qmult_le_compat_r. }
  apply andb_true_intro. split; apply Qle_bool_iff; unfold Qle; simpl; lia.
Qed.

(** C6, as stated, fails: a loaded rating of 7 is returned by
    [clean_rating] unchanged, although [extract_rating] rejects the text 7,
    and the cleaned table holds a [Rating] above 5. *)
Lemma rating_above_five :
  clean_rating (CNum (Fin 7)) = Fin 7 /\
  extract_rating (str "7") = None /\
  exists out d,
    returned (clean_data seven_row) = Ok out /\ In d out /\
    fle (Rating d) (Fin 5) = false.
Proof.
  split; [reflexivity|]. split; [vm_compute; reflexivity|].
  eexists. eexists. split; [vm_compute; reflexivity|].
  split; [left; reflexivity|]. vm_compute. reflexivity.
Qed.

(** C6, amended. Every row of the cleaned table has a non-missing
    [Rating]; it lies in [0, 5] whenever what [clean_rating] makes of each
    loaded rating does (a missing rating becomes 0.0, a number is returned
    unchanged, without the range test of [extract_rating]). *)
Theorem rating_in_range_when_loaded_in_range (df : list raw_row) (out : list drow) :
  returned (clean_data df) = Ok out ->
  Forall (fun d : drow => isna (Rating d) = false) out /\
  (Forall (fun r : raw_row => in_0_5 (fillna (Fin 0) (clean_rating (Rating r))) = true) df ->
   Forall (fun d : drow => in_0_5 (Rating d) = true) out) /\
  (forall x, clean_rating (CNum x) = if isna x then Fin 0 else x).
Proof.
  intros H. pose proof (returned_rows_complete df H) as HF. split; [|split].
  - eapply Forall_impl; [|exact HF]. now intros d (_ & Hr & _).
  - intros Hdf. destruct (@clean_data_returned _ _ H) as (Hp & _ & _).
    destruct (@prepare_inv _ _ Hp) as (t & pre & Ht & Hpre & ->).
    apply Forall_forall. intros d Hd. apply in_map_iff in Hd.
    destruct Hd as (p & <- & Hpin).
    pose proof (derived_rows _ Hpre) as HD. rewrite Forall_forall in HD.
    destruct (HD p Hpin) as (_ & _ & _ & r0 & Hr0 & Hrat).
    apply filter_In in Hr0. destruct Hr0 as [Hr0 _].
    apply mapM_Forall2 in Ht.
    destruct (@Forall2_In_r _ _ _ _ _ r0 Ht Hr0) as (r & Hr & Hrel).
    destruct (clean_review_count (ReviewCount r)); simpl in Hrel; [|discriminate].
    injection Hrel as <-. simpl in Hrat.
    rewrite Forall_forall in Hdf. specialize (Hdf r Hr).
    unfold round_row. simpl. rewrite Hrat. now apply round2_in_0_5.
  - reflexivity.
Qed.

(** The flag of the final table is the one computed at derivation, from the
    rating and the price before they are rounded. *)
Lemma final_flags (df : list raw_row) (out : list drow) :
  returned (clean_data df) = Ok out ->
  exists t pre,
    clean_columns df = Ok t /\
    create_derived_features (drop_nameless t) = Ok pre /\
    Forall2 (fun p d : drow =>
      IsHighValue d = IsHighValue p /\
      Rating d = round2 (Rating p) /\
      Price d = round2 (Price p)) pre out.
Proof.
  intros H. destruct (@clean_data_returned _ _ H) as (Hp & _ & _).
  destruct (@prepare_inv _ _ Hp) as (t & pre & Ht & Hpre & ->).
  exists t, pre. split; [exact Ht|]. split; [exact Hpre|].
  generalize (Forall2_map_fun round_row pre). apply Forall2_impl.
  intros p d ->. repeat split.
Qed.

(** C3, as stated, fails on the cleaned table, in both directions.  With
    the prices 1.00, 1.01 and a missing one, the missing price is imputed as
    1.005 and the row priced 1.00 and rated 5 is flagged; the final prices
    are 1.00, 1.01 and 1.00, so that the flagged row's [Price] is not below
    the median 1.00 of its category.  With a rating of 4.496, a price of 10
    and a category median of 20, the row is not flagged, and its final
    [Rating] is 4.50. *)
Lemma high_value_not_of_final_values :
  (exists out d,
     returned (clean_data penny_rows) = Ok out /\ In d out /\
     IsHighValue d = 1%Z /\
     category_median_of out d = Fin 1.00 /\
     flt (Price d) (reference_median out d) = false) /\
  (exists out d,
     returned (clean_data near_rows) = Ok out /\ In d out /\
     IsHighValue d = 0%Z /\
     fle (Fin 4.5) (Rating d) = true /\
     flt (Price d) (reference_median out d) = true).
Proof.
  split; eexists; eexists.
  - split; [vm_compute; reflexivity|]. split; [left; reflexivity|].
    repeat split; vm_compute; reflexivity.
  - split; [vm_compute; reflexivity|]. split; [left; reflexivity|].
    repeat split; vm_compute; reflexivity.
Qed.

(** C3, amended. For every row of the cleaned table, [IsHighValue] is 0 or
    1, and it is 1 exactly when [R >= 4.5] and [P] is strictly below the
    median of the [P] values of the rows of its category, where [R] and [P]
    are the rating and the price of the row after imputation and before the
    final rounding (the final [Rating] and [Price] are [round(R, 2)] and
    [round(P, 2)], and the flag is not computed again); a row whose category
    median is undefined is compared with its own [P] and is flagged 0. *)
Theorem is_high_value_of_unrounded_values (df : list raw_row) (out : list drow) :
  returned (clean_data df) = Ok out ->
  exists t pre,
    clean_columns df = Ok t /\
    create_derived_features (drop_nameless t) = Ok pre /\
    Forall2 (fun p d : drow =>
      Rating d = round2 (Rating p) /\
      Price d = round2 (Price p) /\
      Category d = Category p /\
      (IsHighValue d = 1%Z \/ IsHighValue d = 0%Z) /\
      (IsHighValue d = 1%Z <->
         fle (Fin 4.5) (Rating p) = true /\
         flt (Price p) (reference_median pre p) = true) /\
      (isna (category_median_of pre p) = true -> IsHighValue d = 0%Z)) pre out.
Proof.
  intros H. destruct (@clean_data_returned _ _ H) as (Hp & _ & _).
  destruct (@prepare_inv _ _ Hp) as (t & pre & Ht & Hpre & ->).
  exists t, pre. split; [exact Ht|]. split; [exact Hpre|].
  pose proof (Forall_Forall2_map round_row (is_high_value_iff _ Hpre)) as HF.
  revert HF. apply Forall2_impl.
  intros p d [(H01 & Hiff & Hundef) ->].
  unfold round_row. cbn [IsHighValue base Rating Price Category set_Rating set_Price].
  split; [reflexivity|]. split; [reflexivity|]. split; [reflexivity|].
  split; [exact H01|]. split; [exact Hiff | exact Hundef].
Qed.

(** A rating of 4.496 is below 4.5 at derivation and shows as 4.50 in the
    final table, next to a flag of 0. *)
Example rounded_rating_unflagged :
  exists d1 d2,
    returned (clean_data near_rows) = Ok [d1; d2] /\
    Rating d1 = Fin 4.50 /\ Price d1 = Fin 10.00 /\ IsHighValue d1 = 0%Z.
Proof. eexists. eexists. repeat split; vm_compute; reflexivity. Qed.

Lemma extract_rating_in_range (s : pystr) (v : pyfloat) :
  extract_rating s = Some v -> in_0_5 v = true.
Proof.
  unfold extract_rating. destruct s as [|c tl]; [discriminate|].
  destruct (search_rating _) as [m|]; [|discriminate].
  destruct (py_float _) as [x|]; [|discriminate].
  unfold in_0_5.
  destruct (fle (Fin 0) x && fle x (Fin 5)) eqn:E; [|discriminate].
  intros H. injection H as <-. exact E.
Qed.

(** *** Instances *)

(** The scenario of the specification: the second price is imputed with
    the category median 12.50, no row is flagged, and the quotients are 4.17
    and 12.50. *)
Example tools_scenario :
  exists d1 d2,
    clean_data tools_rows = mkOutcome (Ok [d1; d2]) (Some [d1; d2]) /\
    Price d1 = Fin 12.50 /\ PricePerReview d1 = Fin 4.17 /\ IsHighValue d1 = 0%Z /\
    Price d2 = Fin 12.50 /\ PricePerReview d2 = Fin 12.50 /\ IsHighValue d2 = 0%Z.
Proof. eexists. eexists. repeat split; vm_compute; reflexivity. Qed.

Lemma clean_data_no_nulls_witness :
  (saved (clean_data quarter_row) = Some quarter_cleaned /\
   Forall (fun d : drow =>
     isna (Price d) = false /\ isna (Rating d) = false /\
     isna (PricePerReview d) = false) quarter_cleaned) /\
  finish holed_table = mkOutcome (Raise AssertionError) None.
Proof.
  split.
  - apply (proj1 (clean_data_no_nulls quarter_row)). vm_compute. reflexivity.
  - apply (proj2 (proj2 (clean_data_no_nulls quarter_row))).
    apply Exists_cons_hd. left. reflexivity.
Defined.

Lemma price_per_review_of_unrounded_price_witness :
  exists t pre,
    clean_columns quarter_row = Ok t /\
    create_derived_features (drop_nameless t) = Ok pre /\
    Forall2 (fun p d : drow =>
      Price d = round2 (Price p) /\
      ReviewCount d = ReviewCount p /\
      PricePerReview d =
        round2 (fdiv_count (Price p) (Z.to_pos (Z.max (ReviewCount d) 1))))
      pre quarter_cleaned.
Proof.
  apply (price_per_review_of_unrounded_price quarter_row). vm_compute. reflexivity.
Defined.

Lemma is_high_value_of_unrounded_values_witness :
  exists t pre,
    clean_columns penny_rows = Ok t /\
    create_derived_features (drop_nameless t) = Ok pre /\
    Forall2 (fun p d : drow =>
      Rating d = round2 (Rating p) /\
      Price d = round2 (Price p) /\
      Category d = Category p /\
      (IsHighValue d = 1%Z \/ IsHighValue d = 0%Z) /\
      (IsHighValue d = 1%Z <->
         fle (Fin 4.5) (Rating p) = true /\
         flt (Price p) (reference_median pre p) = true) /\
      (isna (category_median_of pre p) = true -> IsHighValue d = 0%Z))
      pre penny_cleaned.
Proof.
  apply (is_high_value_of_unrounded_values penny_rows). vm_compute. reflexivity.
Defined.

Example penny_flags :
  map IsHighValue penny_cleaned = [1%Z; 0%Z; 0%Z] /\
  map (fun d : drow => Price d) penny_cleaned = [Fin 1.00; Fin 1.01; Fin 1.00].
Proof. split; vm_compute; reflexivity. Qed.

Example shop_flags :
  map IsHighValue shop_derived = [1%Z; 0%Z; 0%Z; 0%Z] /\
  map (fun d : drow => Price d) shop_derived
    = [Fin 10; Fin 20; Fin (30 # 2); Fin (30 # 2)].
Proof. split; vm_compute; reflexivity. Qed.

Lemma rating_in_range_when_loaded_in_range_witness :
  Forall (fun d : drow => isna (Rating d) = false) quarter_cleaned /\
  Forall (fun d : drow => in_0_5 (Rating d) = true) quarter_cleaned.
Proof.
  destruct (rating_in_range_when_loaded_in_range quarter_row (out := quarter_cleaned))
    as (H1 & H2 & _).
  - vm_compute. reflexivity.
  - split; [exact H1|]. apply H2.
    repeat constructor.
Defined.

Lemma create_derived_features_frame_witness :
  nth_error (fst (create_derived_features_at [Cleaned shop_rows] 0)) 0
    = Some (Cleaned shop_rows) /\
  snd (create_derived_features_at [Cleaned shop_rows] 0) = Ok 1.
Proof.
  split.
  - apply (proj1 (proj2 (create_derived_features_frame [Cleaned shop_rows] 0
                           (t := shop_rows) eq_refl))).
  - vm_compute. reflexivity.
Defined.

End CleanerFacts.

(** ** Pagination discovery and the crawl of all categories *)

Module CrawlFacts.
Import ScraperFacts.

Local Open Scope Z_scope.

Lemma scan_links_grows (links : list link) (m0 m : Z) :
  scan_links links m0 = Ok m -> m0 <= m.
Proof.
  revert m0. induction links as [|l rest IH]; intros m0 H; simpl in H.
  - injection H as <-. lia.
  - destruct (link_number l) as [[n|]|e]; simpl in H; try discriminate.
    + apply IH in H. lia.
    + now apply IH.
Qed.

Lemma scan_links_covers (links : list link) (m0 m : Z) (l : link) (n : Z) :
  scan_links links m0 = Ok m -> In l links -> link_number l = Ok (Some n) -> n <= m.
Proof.
  revert m0. induction links as [|x rest IH]; intros m0 H Hin Hn; [contradiction|].
  simpl in H. destruct Hin as [->|Hin].
  - rewrite Hn in H. simpl in H. apply scan_links_grows in H. lia.
  - destruct (link_number x) as [[k|]|e]; simpl in H; try discriminate;
      now apply (IH _ H).
Qed.

Lemma scan_links_attained (links : list link) (m0 m : Z) :
  scan_links links m0 = Ok m ->
  m = m0 \/ exists l, In l links /\ link_number l = Ok (Some m).
Proof.
  revert m0. induction links as [|x rest IH]; intros m0 H; simpl in H.
  - injection H as <-. now left.
  - destruct (link_number x) as [[k|]|e] eqn:E; simpl in H; try discriminate.
    + destruct (IH _ H) as [->|(l & Hl & Hn)].
      * destruct (Z.max_spec m0 k) as [[_ ->]|[_ ->]].
        -- right. exists x. split; [now left | exact E].
        -- now left.
      * right. exists l. split; [now right | exact Hn].
    + destruct (IH _ H) as [->|(l & Hl & Hn)]; [now left|].
      right. exists l. split; [now right | exact Hn].
Qed.

Lemma scan_links_raises (links : list link) (m0 : Z) (l : link) (e : exception) :
  In l links -> link_number l = Raise e -> exists e', scan_links links m0 = Raise e'.
Proof.
  revert m0. induction links as [|x rest IH]; intros m0 Hin Hl; [contradiction|].
  simpl. destruct Hin as [->|Hin].
  - rewrite Hl. simpl. now eexists.
  - destruct (link_number x) as [[k|]|e0]; simpl; try (now eexists); now apply IH.
Qed.

Lemma scan_links_total (links : list link) (m0 : Z) :
  Forall (fun l => exists r, link_number l = Ok r) links ->
  exists m, scan_links links m0 = Ok m.
Proof.
  intros H. revert m0. induction H as [|x rest [r Hr] _ IH]; intros m0; simpl.
  - now eexists.
  - rewrite Hr. simpl. destruct r; apply IH.
Qed.

Lemma get_max_pages_cap (page : first_page) : get_max_pages page <= 50.
Proof.
  unfold get_max_pages, recover, PAGES_PER_CATEGORY.
  destruct page as [[links|]|e]; simpl; try lia.
  destruct (scan_links links 1) as [m|e]; simpl; lia.
Qed.

(** X1. [get_max_pages] returns a page count between 1 and 50, whatever the
    first page shows and also when loading it raises. *)
Theorem get_max_pages_bounds (page : first_page) :
  1 <= get_max_pages page <= 50.
Proof.
  unfold get_max_pages, recover, PAGES_PER_CATEGORY.
  destruct page as [[links|]|e]; simpl; try lia.
  destruct (scan_links links 1) as [m|e] eqn:E; simpl; [|lia].
  apply scan_links_grows in E. lia.
Qed.

(** X2. When every link number can be converted, the count returned is at
    least [min(n, 50)] for the number [n] of each link, and it is either 1
    or [min(n, 50)] for the number [n] of some link. *)
Theorem get_max_pages_largest_link (links : list link) :
  Forall (fun l => exists r, link_number l = Ok r) links ->
  (forall l n, In l links -> link_number l = Ok (Some n) ->
     Z.min n 50 <= get_max_pages (Ok (Some links))) /\
  (get_max_pages (Ok (Some links)) = 1 \/
   exists l n, In l links /\ link_number l = Ok (Some n) /\
               get_max_pages (Ok (Some links)) = Z.min n 50).
Proof.
  intros Hall. destruct (@scan_links_total links 1 Hall) as [m Hm].
  unfold get_max_pages, recover. simpl. rewrite Hm. simpl. split.
  - intros l n Hin Hn. pose proof (@scan_links_covers links 1 m l n Hm Hin Hn). lia.
  - destruct (@scan_links_attained links 1 m Hm) as [->|(l & Hl & Hn)].
    + left. reflexivity.
    + right. now exists l, m.
Qed.

(** X3. A single link whose digit run is over-long makes [get_max_pages] fall
    back to the default of 5 pages, whatever the other links say. *)
Theorem get_max_pages_overlong_link (links : list link) (l : link) (e : exception) :
  In l links -> link_number l = Raise e ->
  get_max_pages (Ok (Some links)) = PAGES_PER_CATEGORY.
Proof.
  intros Hin Hl. destruct (@scan_links_raises links 1 l e Hin Hl) as [e' He].
  unfold get_max_pages, recover. simpl. now rewrite He.
Qed.

(** *** Records *)

Lemma extract_price_positive (s : pystr) (v : pyfloat) :
  extract_price s = Some v -> flt (Fin 0) v = true.
Proof.
  unfold extract_price. destruct s as [|c tl]; [discriminate|].
  destruct (filter _ _) as [|x xs]; [discriminate|].
  destruct (py_float _) as [w|]; [|discriminate].
  destruct (flt (Fin 0) w) eqn:E; [|discriminate].
  intros H. injection H as <-. exact E.
Qed.

Lemma extract_review_count_nonneg (s : pystr) : 0 <= extract_review_count s.
Proof.
  unfold extract_review_count. destruct s as [|c tl]; [lia|].
  destruct (search_digits _) as [m|]; [|lia].
  unfold int_of_digits. destruct (_ <? _)%nat; lia.
Qed.

Lemma extract_block_well_formed (category : pystr) (b : block) (r : raw_record) :
  extract_block category b = Ok (Some r) -> well_formed category r.
Proof.
  unfold extract_block. destruct b as [f|e]; cbn [bind]; [|discriminate].
  destruct (f_name f) as [[|c tl]|]; try discriminate.
  intros H. injection H as <-. unfold well_formed.
  cbn [rec_category rec_name rec_url rec_price rec_rating rec_reviews].
  split; [reflexivity|]. split; [discriminate|]. split; [|split; [|split]].
  - destruct (f_href f) as [[|x u]|]; try exact I.
    match goal with
    | |- context [if ?cond then _ else _] => destruct cond eqn:E
    end; [exact E | reflexivity].
  - destruct (f_price f) as [[oriprice price_text]|]; [|exact I].
    destruct oriprice as [[|x o]|].
    + destruct price_text as [|y t]; [exact I|].
      destruct (extract_price (y :: t)) eqn:E; [|exact I].
      now apply extract_price_positive in E.
    + destruct (extract_price (x :: o)) eqn:E.
      * now apply extract_price_positive in E.
      * destruct price_text as [|y t]; [exact I|].
        destruct (extract_price (y :: t)) eqn:E'; [|exact I].
        now apply extract_price_positive in E'.
    + destruct price_text as [|y t]; [exact I|].
      destruct (extract_price (y :: t)) eqn:E; [|exact I].
      now apply extract_price_positive in E.
  - destruct (f_rating f) as [t|]; [|exact I].
    destruct (extract_rating (clean_text t)) eqn:E; [|exact I].
    apply CleanerFacts.extract_rating_in_range in E. exact E.
  - destruct (f_review f); [apply extract_review_count_nonneg | lia].
Qed.

Lemma kept_well_formed (category : pystr) (bs : list block) :
  Forall (well_formed category) (kept category bs).
Proof.
  unfold kept. apply Forall_forall. intros r Hr.
  apply in_flat_map in Hr. destruct Hr as (b & _ & Hr).
  destruct (extract_block category b) as [[r'|]|e] eqn:E; simpl in Hr; try contradiction.
  destruct Hr as [<-|[]]. now apply extract_block_well_formed with b.
Qed.

Lemma scrape_page_from_shape (d : driver) (category : pystr) (remaining retry_count : nat) :
  snd (scrape_page_from d category remaining retry_count) = Ok [] \/
  exists bs, snd (scrape_page_from d category remaining retry_count) = Ok (kept category bs).
Proof.
  revert retry_count. induction remaining as [|k IH]; intros retry_count; simpl;
    destruct (get_raises (d retry_count)); simpl; try (now left);
    destruct (priced_marker (d retry_count) || price_marker (d retry_count)
              || block_marker (d retry_count)); simpl;
    try (now left);
    try (destruct (page_blocks (d retry_count)) as [bs|e]; simpl;
         [right; exists bs; now rewrite scrape_blocks_kept | now left]).
  specialize (IH (S retry_count)).
  destruct (scrape_page_from d category k (S retry_count)) as [n r]. simpl in *.
  destruct IH as [->|[bs ->]]; simpl; [now left | right; now exists bs].
Qed.

Lemma scrape_page_from_well_formed (d : driver) (category : pystr)
    (remaining retry_count : nat) (products : list raw_record) :
  snd (scrape_page_from d category remaining retry_count) = Ok products ->
  Forall (well_formed category) products.
Proof.
  intros H.
  destruct (scrape_page_from_shape d category remaining retry_count) as [E|[bs E]];
    rewrite E in H; injection H as <-.
  - constructor.
  - apply kept_well_formed.
Qed.

(** X4. Every record returned by [scrape_page] carries the category it was
    called with and a non-empty name; its link, when not empty, is absolute;
    its price, when present, is positive; its rating, when present, lies in
    [0, 5]; its review count is not negative. *)
Theorem scrape_page_records (d : driver) (category : pystr) (retry_count : nat)
    (products : list raw_record) :
  snd (scrape_page d category retry_count) = Ok products ->
  Forall (well_formed category) products.
Proof.
  unfold scrape_page. intros H.
  apply Forall_forall. intros r Hr.
  pose proof (@scrape_page_from_well_formed d category
                (MAX_RETRIES_PER_PAGE - retry_count) retry_count products H) as HF.
  rewrite Forall_forall in HF. now apply HF.
Qed.

(** *** The crawl of all categories *)

Local Open Scope nat_scope.

(** What [scrape_page] returns for page [page] of site [s]. *)
Lemma crawl_site_pure (s : site) (pages fetched : list nat) (acc : list raw_record) :
  crawl_site s pages fetched acc =
  Ok (crawl_pages
        (fun page => recover (snd (scrape_page (site_browser s page) (site_category s) 0)) [])
        pages fetched acc).
Proof.
  revert fetched acc. induction pages as [|page rest IH]; intros fetched acc; simpl.
  - reflexivity.
  - destruct (scrape_page_from_ok (site_browser s page) (site_category s)
                (MAX_RETRIES_PER_PAGE - 0) 0) as [products Hp].
    change (snd (scrape_page (site_browser s page) (site_category s) 0) = Ok products) in Hp.
    rewrite !Hp. cbn [bind recover].
    destruct ((List.length products =? 0) && (1 <? page)); [reflexivity | apply IH].
Qed.

Lemma crawl_sites_spec (ppc : Z) (sites : list site) (log : list (list nat))
    (all_products : list raw_record) :
  exists log' products,
    crawl_sites ppc sites log all_products = Ok (log ++ log', all_products ++ products) /\
    Forall2 (fun (s : site) fetched =>
      exists m, fetched = seq 1 m /\
                (Z.of_nat m <= Z.max 0 (Z.min ppc 50))%Z) sites log' /\
    Forall (fun r => exists s, In s sites /\ well_formed (site_category s) r) products.
Proof.
  revert log all_products. induction sites as [|s rest IH]; intros log all_products.
  - exists [], []. simpl. rewrite !app_nil_r. repeat split; constructor.
  - simpl. rewrite crawl_site_pure. simpl.
    set (scrape := fun page => recover (snd (scrape_page (site_browser s page) (site_category s) 0)) []).
    set (n := Z.to_nat (pages_to_scrape ppc s)).
    destruct (crawl_pages_seq scrape n 1 [] []) as (m & Hm & Heq & _ & _).
    rewrite Heq. simpl.
    destruct (IH (log ++ [seq 1 m]) (all_products ++ flat_map scrape (seq 1 m)))
      as (log' & products & Hrun & Hlog & Hrec).
    exists (seq 1 m :: log'), (flat_map scrape (seq 1 m) ++ products).
    rewrite Hrun, <- !app_assoc. simpl. split; [reflexivity|]. split.
    + constructor; [|exact Hlog]. exists m. split; [reflexivity|].
      subst n. unfold pages_to_scrape in Hm.
      pose proof (get_max_pages_cap (site_first s)). lia.
    + apply Forall_app. split.
      * apply Forall_forall. intros r Hr. apply in_flat_map in Hr.
        destruct Hr as (page & _ & Hr). exists s. split; [now left|].
        subst scrape. cbv beta in Hr.
        destruct (snd (scrape_page (site_browser s page) (site_category s) 0))
          as [l|e] eqn:E; simpl in Hr; [|contradiction].
        pose proof (@scrape_page_from_well_formed _ _ _ _ _ E) as HF.
        rewrite Forall_forall in HF. now apply HF.
      * eapply Forall_impl; [|exact Hrec].
        intros r (s' & Hs' & Hw). exists s'. split; [now right | exact Hw].
Qed.

(** X5. The category loop of [main] raises nothing: [main] raises only what
    [get_driver] raises (and then does nothing else), or else what
    [driver.quit] raises, or else what building and writing the frame
    raises; [driver.quit] is called whenever the browser has started, and
    the frame returned is the one written.  For each category, in the order
    of the configuration, the pages fetched are pages 1 to m, with m at most
    [min(pages_per_category, 50)] (at most 5 with the default argument);
    every record collected is a well-formed record of one of the configured
    categories. *)
Theorem main_outcome (pages_per_category : option Z) (m : machine) (sites : list site) :
  exists log products,
    Forall2 (fun (s : site) fetched =>
      exists n, fetched = seq 1 n /\
        (Z.of_nat n <= Z.max 0 (Z.min (match pages_per_category with
                                       | Some k => k
                                       | None => 5%Z
                                       end) 50))%Z) sites log /\
    Forall (fun r => exists s, In s sites /\ well_formed (site_category s) r) products /\
    main pages_per_category m sites =
    match get_driver m with
    | Raise e => mkSession (Raise e) [] false None
    | Ok _ =>
        match driver_quit m with
        | Raise e => mkSession (Raise e) log true None
        | Ok _ =>
            match to_csv m products with
            | Ok _ => mkSession (Ok products) log true (Some products)
            | Raise e => mkSession (Raise e) log true None
            end
        end
    end.
Proof.
  unfold main.
  destruct (crawl_sites_spec
              (match pages_per_category with Some n => n | None => PAGES_PER_CATEGORY end)
              sites [] []) as (log & products & Hrun & Hlog & Hrec).
  simpl app in Hrun.
  exists log, products. split; [destruct pages_per_category; exact Hlog|].
  split; [exact Hrec|].
  rewrite Hrun. cbv zeta. unfold finally.
  destruct (get_driver m); [|reflexivity].
  destruct (driver_quit m); reflexivity.
Qed.

(** *** Instances *)

Lemma get_max_pages_largest_link_witness :
  (50 <= get_max_pages (Ok (Some numbered_links)))%Z.
Proof.
  assert (H : Forall (fun l => exists r, link_number l = Ok r) numbered_links)
    by (repeat constructor; eexists; vm_compute; reflexivity).
  apply (proj1 (get_max_pages_largest_link H) page_73_link 73%Z).
  - right. left. reflexivity.
  - vm_compute. reflexivity.
Defined.

Lemma get_max_pages_overlong_link_witness :
  get_max_pages (Ok (Some overlong_links)) = 5%Z.
Proof.
  apply (@get_max_pages_overlong_link overlong_links overlong_link ValueError).
  - right. left. reflexivity.
  - vm_compute. reflexivity.
Defined.

Lemma scrape_page_records_witness :
  Forall (well_formed (str "Tools")) [drill_record; drill_record].
Proof.
  apply (@scrape_page_records late_driver (str "Tools") 0). vm_compute. reflexivity.
Defined.

Example main_on_tools :
  main (Some 2%Z) sound_machine [tools_site] =
  mkSession (Ok [drill_record; drill_record; drill_record; drill_record])
            [[1; 2]] true
            (Some [drill_record; drill_record; drill_record; drill_record]) /\
  main (Some 2%Z) stuck_machine [tools_site] =
  mkSession (Raise OtherError) [[1; 2]] true None.
Proof. split; vm_compute; reflexivity. Qed.

End CrawlFacts.

(** ** More on cleaning and derived features *)

Module CleanerMore.
Import PyStrFacts CleanerFacts.

Local Open Scope nat_scope.

Lemma mapM_raises {A B} (f : A -> exn B) (l : list A) (e : exception) :
  Forall (fun x => (exists y, f x = Ok y) \/ f x = Raise e) l ->
  Exists (fun x => f x = Raise e) l ->
  mapM f l = Raise e.
Proof.
  intros Hall Hex. induction Hall as [|x tl Hx _ IH]; [inversion Hex|].
  simpl. destruct Hx as [[y Hy]|Hx].
  - rewrite Hy. simpl. inversion Hex as [? ? H|? ? H]; subst; [congruence|].
    now rewrite (IH H).
  - now rewrite Hx.
Qed.

Lemma fill_review_count_cell (x : pyfloat) :
  astype_int (fillna (of_int 0) x) =
  if infinite x then Raise ValueError
  else Ok (match x with Fin q => Z.quot (Qnum q) (Zpos (Qden q)) | _ => 0%Z end).
Proof. destruct x; reflexivity. Qed.

(** X8. For every frame, the table returned by [create_derived_features] has
    no missing [Price], [Rating] or [PricePerReview]. *)
Theorem create_derived_features_complete (df : list num_row) (out : list drow) :
  create_derived_features df = Ok out ->
  Forall (fun d : drow =>
    isna (Price d) = false /\ isna (Rating d) = false /\
    isna (PricePerReview d) = false) out.
Proof.
  intros H. pose proof (derived_rows df H) as HF.
  eapply Forall_impl; [|exact HF].
  intros d (HP & HR & HPPR & _). unfold notna in HP, HR.
  rewrite HPPR.
  assert (E : isna (fdiv_count (Price d) (Z.to_pos (Z.max (ReviewCount d) 1)))
              = isna (Price d)) by (destruct (Price d); reflexivity).
  rewrite E. destruct (isna (Price d)), (isna (Rating d)); try discriminate; auto.
Qed.

(** X9. [create_derived_features] returns a table of as many rows as its
    argument when no [ReviewCount] cell is infinite, and raises [ValueError]
    when one is. *)
Theorem create_derived_features_outcome (df : list num_row) :
  (Forall (fun r : num_row => infinite (ReviewCount r) = false) df ->
   exists out, create_derived_features df = Ok out /\
               List.length out = List.length df) /\
  (Exists (fun r : num_row => infinite (ReviewCount r) = true) df ->
   create_derived_features df = Raise ValueError).
Proof.
  split.
  - intros Hfin.
    assert (Hf : exists t1, fill_review_count df = Ok t1).
    { apply mapM_total. eapply Forall_impl; [|exact Hfin].
      intros r Hr. cbv beta. rewrite fill_review_count_cell, Hr. simpl. now eexists. }
    destruct Hf as [t1 Ht1].
    unfold create_derived_features. rewrite Ht1. simpl. eexists. split; [reflexivity|].
    unfold add_price_per_review, add_is_high_value, fill_price_overall,
      fill_price_by_category, fill_rating.
    rewrite !length_map.
    apply mapM_Forall2 in Ht1. symmetry. now apply Forall2_length in Ht1.
  - intros Hinf. unfold create_derived_features, fill_review_count.
    rewrite (@mapM_raises _ _ _ df ValueError).
    + reflexivity.
    + apply Forall_forall. intros r _. rewrite fill_review_count_cell.
      destruct (infinite (ReviewCount r)); simpl; [now right | left; now eexists].
    + eapply Exists_impl; [|exact Hinf].
      intros r Hr. cbv beta. now rewrite fill_review_count_cell, Hr.
Qed.

Lemma clean_review_count_cell (c : cell) :
  (exists n, clean_review_count c = Ok n) \/ clean_review_count c = Raise OverflowError.
Proof.
  destruct c as [[| | |q]|s]; simpl; try (left; now eexists); try (now right).
  destruct (search_digits s) as [m|]; [|left; now eexists].
  destruct (int_of_digits m); left; now eexists.
Qed.

(** X14. [clean_data] returns and saves a table when no loaded [ReviewCount]
    cell is an infinite number; when one is, it raises [OverflowError] and
    saves nothing.  It never fails in another way. *)
Theorem clean_data_outcome (df : list raw_row) :
  (Forall (fun r : raw_row => infinite_cell (ReviewCount r) = false) df ->
   exists out, clean_data df = mkOutcome (Ok out) (Some out)) /\
  (Exists (fun r : raw_row => infinite_cell (ReviewCount r) = true) df ->
   clean_data df = mkOutcome (Raise OverflowError) None).
Proof.
  split.
  - intros H. apply clean_data_returns.
    eapply Forall_impl; [|exact H].
    intros r Hr. cbv beta in Hr |- *. split; intros E; rewrite E in Hr; discriminate.
  - intros H. unfold clean_data, prepare, clean_columns.
    rewrite (@mapM_raises _ _ _ df OverflowError).
    + reflexivity.
    + apply Forall_forall. intros r _.
      destruct (clean_review_count_cell (ReviewCount r)) as [[n Hn]|Hn];
        rewrite Hn; simpl; [left; now eexists | now right].
    + eapply Exists_impl; [|exact H].
      intros r Hr. cbv beta in Hr |- *. revert Hr.
      destruct (ReviewCount r) as [[| | |q]|s]; simpl; intros Hr;
        try discriminate; reflexivity.
Qed.

Lemma round2_two_decimals (x : pyfloat) : isna x = false -> two_decimals (round2 x).
Proof.
  destruct x as [| | |q]; intros H; try discriminate.
  - now left.
  - now left.
  - right. now eexists.
Qed.

(** In the table returned by [clean_data], every [Price], [Rating] and
    [PricePerReview] is a whole number of hundredths (or infinite). *)
Theorem clean_data_two_decimals (df : list raw_row) (out : list drow) :
  returned (clean_data df) = Ok out ->
  Forall (fun d : drow =>
    two_decimals (Price d) /\ two_decimals (Rating d) /\
    two_decimals (PricePerReview d)) out.
Proof.
  intros H. destruct (@clean_data_returned _ _ H) as (Hp & _ & _).
  destruct (@prepare_inv _ _ Hp) as (t & pre & _ & Hpre & ->).
  pose proof (derived_rows _ Hpre) as HF.
  apply Forall_forall. intros d Hd. apply in_map_iff in Hd.
  destruct Hd as (p & <- & Hpin). rewrite Forall_forall in HF.
  destruct (HF p Hpin) as (H1 & H2 & H3 & _).
  unfold notna in H1, H2.
  unfold round_row. simpl. rewrite H3. repeat split; apply round2_two_decimals.
  - now destruct (isna (Price p)).
  - now destruct (isna (Rating p)).
  - destruct (Price p); try discriminate; reflexivity.
Qed.

Lemma cleaned_text (df : list raw_row) (t : list num_row) (r0 : num_row) :
  clean_columns df = Ok t -> In r0 t ->
  stripped (Category r0) /\ stripped (ProductName r0) /\ stripped (ProductURL r0).
Proof.
  intros Ht Hin. apply mapM_Forall2 in Ht.
  destruct (@Forall2_In_r _ _ _ _ _ r0 Ht Hin) as (r & _ & Hr).
  destruct (clean_review_count (ReviewCount r)); simpl in Hr; [|discriminate].
  injection Hr as <-. simpl.
  repeat split; eexists; (split; [reflexivity | apply strip_by_idem]).
Qed.

(** X15. On a loaded frame without missing text, the name column of the table
    returned by [clean_data] is the list of the stripped loaded names
    without those that are empty, in the loaded order: a row is removed
    exactly when its stripped name is empty, and no row is added or moved.
    The rendering of a missing cell plays no part. *)
Theorem clean_data_names_of_present_texts (df : list raw_row) (names : list pystr)
    (out : list drow) :
  Forall texts_present df ->
  map (fun r : raw_row => ProductName r) df = map (@Some pystr) names ->
  returned (clean_data df) = Ok out ->
  map (fun d : drow => ProductName d) out =
  map (@Some pystr)
      (filter (fun name => match name with [] => false | _ => true end)
              (map strip names)).
Proof.
  intros _ Hnames H. rewrite (clean_data_names df H). f_equal. f_equal.
  transitivity (map (fun o => strip (astype_str o))
                    (map (fun r : raw_row => ProductName r) df)).
  { now rewrite map_map. }
  rewrite Hnames, map_map. reflexivity.
Qed.

(** X16. On a loaded frame without missing text, the category, the name and
    the link of every row of the table returned by [clean_data] are present
    and carry no surrounding white space, and the name is not empty. *)
Theorem clean_data_texts (df : list raw_row) (out : list drow) :
  Forall texts_present df ->
  returned (clean_data df) = Ok out ->
  Forall (fun d : drow =>
    stripped (Category d) /\ stripped (ProductURL d) /\
    exists s, ProductName d = Some s /\ s <> [] /\ strip s = s) out.
Proof.
  intros _ H. destruct (@clean_data_returned _ _ H) as (Hp & _ & _).
  destruct (@prepare_inv _ _ Hp) as (t & pre & Ht & Hpre & ->).
  pose proof (@derived_text_column (drop_nameless t) pre (@Category)
                ltac:(reflexivity) ltac:(reflexivity) ltac:(reflexivity) Hpre) as HC.
  pose proof (@derived_text_column (drop_nameless t) pre (@ProductName)
                ltac:(reflexivity) ltac:(reflexivity) ltac:(reflexivity) Hpre) as HN.
  pose proof (@derived_text_column (drop_nameless t) pre (@ProductURL)
                ltac:(reflexivity) ltac:(reflexivity) ltac:(reflexivity) Hpre) as HU.
  apply Forall_forall. intros d Hd. apply in_map_iff in Hd.
  destruct Hd as (p & <- & Hpin). unfold round_row. simpl.
  assert (Hsrc : forall proj : (forall V C, row V C -> option pystr),
            map (fun d : drow => proj _ _ d) pre = map (proj _ _) (drop_nameless t) ->
            exists r0, In r0 (drop_nameless t) /\ proj _ _ r0 = proj _ _ (base p)).
  { intros proj E.
    assert (Hi : In (proj _ _ (base p)) (map (fun d : drow => proj _ _ d) pre))
      by (apply in_map_iff; now exists p).
    rewrite E in Hi. apply in_map_iff in Hi. destruct Hi as (r0 & E0 & Hr0).
    now exists r0. }
  destruct (Hsrc (@Category) HC) as (rc & Hrc & Ec).
  destruct (Hsrc (@ProductURL) HU) as (ru & Hru & Eu).
  destruct (Hsrc (@ProductName) HN) as (rn & Hrn & En).
  unfold drop_nameless in Hrc, Hru, Hrn.
  apply filter_In in Hrc, Hru, Hrn.
  destruct Hrc as [Hrc _]. destruct Hru as [Hru _]. destruct Hrn as [Hrn Hname].
  destruct (@cleaned_text df t rc Ht Hrc) as (Sc & _ & _).
  destruct (@cleaned_text df t ru Ht Hru) as (_ & _ & Su).
  destruct (@cleaned_text df t rn Ht Hrn) as (_ & (s & Es & Hs) & _).
  rewrite <- Ec, <- Eu, <- En. split; [exact Sc|]. split; [exact Su|].
  exists s. split; [exact Es|]. split; [|exact Hs].
  unfold has_name in Hname. rewrite Es in Hname. now destruct s.
Qed.

Lemma fdiv_count_one (x : pyfloat) : isna x = false -> feq (fdiv_count x 1) x = true.
Proof.
  destruct x as [| | |a]; intros H; try discriminate; try reflexivity.
  unfold feq, fdiv_count, fle.
  assert (E : (a / inject_Z 1 == a)%Q).
  { unfold Qdiv. change (/ inject_Z 1)%Q with 1%Q. apply Qmult_1_r. }
  apply andb_true_intro. split; apply Qle_bool_iff; rewrite E; apply Qle_refl.
Qed.

(** X13. After derivation, a row with at most one review has a
    [PricePerReview] equal to its [Price]. *)
Theorem price_per_review_without_reviews (df : list num_row) (out : list drow) :
  create_derived_features df = Ok out ->
  Forall (fun d : drow =>
    (ReviewCount d <= 1)%Z -> feq (PricePerReview d) (Price d) = true) out.
Proof.
  intros H. pose proof (derived_rows df H) as HF.
  eapply Forall_impl; [|exact HF].
  intros d (HP & _ & HPPR & _) Hle. rewrite HPPR.
  replace (Z.max (ReviewCount d) 1) with 1%Z by lia.
  apply fdiv_count_one. unfold notna in HP. now destruct (isna (Price d)).
Qed.

(** *** Imputation of the price *)

Lemma Forall2_map_r {A B C} (R : A -> C -> Prop) (f : B -> C) (l : list A) (l' : list B) :
  Forall2 (fun x y => R x (f y)) l l' -> Forall2 R l (map f l').
Proof. induction 1; simpl; constructor; auto. Qed.

Lemma Forall2_map_inv {A B C} (R : A -> C -> Prop) (f : B -> C) (l : list A) (l' : list B) :
  Forall2 R l (map f l') -> Forall2 (fun x y => R x (f y)) l l'.
Proof.
  revert l. induction l' as [|y tl IH]; intros l H; inversion H; subst; constructor; auto.
Qed.

Lemma group_prices_ext {C D} (l : list (row pyfloat C)) (l' : list (row pyfloat D))
    (c : pystr) :
  Forall2 (fun a b => Category b = Category a /\ Price b = Price a) l l' ->
  group_prices l' c = group_prices l c.
Proof.
  unfold group_prices, in_category.
  induction 1 as [|a b tl tl' [HC HP] _ IH]; simpl; [reflexivity|].
  rewrite HC. destruct (Category a) as [c'|]; [|exact IH].
  destruct (pystr_eq_dec c c'); simpl; now rewrite ?HP, IH.
Qed.

Lemma fill_rating_same (t1 : list int_row) :
  Forall2 (fun a b : int_row => Category b = Category a /\ Price b = Price a)
          t1 (fill_rating t1).
Proof. unfold fill_rating. induction t1; simpl; constructor; auto. Qed.

Lemma group_prices_filled (df : list num_row) (t1 : list int_row) (c : pystr) :
  fill_review_count df = Ok t1 ->
  group_prices (fill_rating t1) c = group_prices df c.
Proof.
  intros H. rewrite (@group_prices_ext _ _ _ _ c (fill_rating_same t1)).
  apply group_prices_ext.
  eapply Forall2_impl; [|exact (fill_review_count_rows df H)].
  intros a b (HC & _ & _ & HP & _). auto.
Qed.

Lemma median_missing (col : list pyfloat) :
  Forall (fun x => isna x = true) col -> median col = NaN.
Proof.
  intros H. unfold median.
  assert (E : filter notna col = []).
  { induction H as [|x tl Hx _ IH]; simpl; [reflexivity|].
    unfold notna at 1. now rewrite Hx. }
  now rewrite E.
Qed.

(** The prices after the two fills of lines 63-70, from the frame [X] they
    are applied to. *)
Lemma derived_price (X : list int_row) :
  let Y := fill_price_by_category X in
  let overall := if isna (median (map (fun r : int_row => Price r) Y))
                 then Fin 0 else median (map (fun r : int_row => Price r) Y) in
  map (fun r : int_row => Price r) (fill_price_overall Y) =
  map (fun r : int_row =>
         fillna overall
           match Category r with
           | Some c =>
               if notna (median (group_prices X c))
               then fillna (median (group_prices X c)) (Price r)
               else Price r
           | None => NaN
           end) X.
Proof.
  cbv zeta. set (Y := fill_price_by_category X).
  unfold fill_price_overall. rewrite map_map. fold Y.
  set (overall := if isna _ then _ else _). clearbody overall.
  unfold Y, fill_price_by_category. rewrite map_map.
  apply map_ext. intros r. reflexivity.
Qed.

Lemma filled_rows (df : list num_row) (t1 : list int_row) :
  fill_review_count df = Ok t1 ->
  Forall2 (fun (r : num_row) (x : int_row) =>
    Category x = Category r /\ Price x = Price r) df (fill_rating t1).
Proof.
  intros H. unfold fill_rating. apply Forall2_map_r.
  eapply Forall2_impl; [|exact (fill_review_count_rows df H)].
  intros a b (HC & _ & _ & HP & _). auto.
Qed.

(** X10. After derivation, in a row that has a category, a price that was
    present is unchanged, and a price that was missing is the median of the
    prices present in the rows of that category, when there is one. *)
Theorem imputed_prices (df : list num_row) (out : list drow) :
  create_derived_features df = Ok out ->
  Forall2 (fun (r : num_row) (d : drow) =>
    forall c, Category r = Some c ->
      (isna (Price r) = false -> Price d = Price r) /\
      (isna (Price r) = true -> isna (median (group_prices df c)) = false ->
       Price d = median (group_prices df c))) df out.
Proof.
  intros H. destruct (@create_derived_features_inv _ _ H) as (t1 & H1 & ->).
  cbv zeta. clear H.
  set (M := category_medians _). clearbody M.
  apply Forall2_map_r.
  assert (HP : Forall2 (fun (r : num_row) (p : pyfloat) =>
            forall c, Category r = Some c ->
              (isna (Price r) = false -> p = Price r) /\
              (isna (Price r) = true -> isna (median (group_prices df c)) = false ->
               p = median (group_prices df c)))
            df (map (fun r : int_row => Price r)
                  (fill_price_overall (fill_price_by_category (fill_rating t1))))).
  { rewrite (derived_price (fill_rating t1)). cbv zeta. apply Forall2_map_r.
    set (overall := if isna _ then _ else _). clearbody overall.
    eapply Forall2_impl; [|exact (filled_rows df H1)].
    intros r x (HC & HPr) c Hc.
    cbv beta. rewrite HC, Hc, HPr, (@group_prices_filled df t1 c H1).
    unfold notna, fillna.
    split.
    - intros Hp. rewrite Hp.
      destruct (isna (median (group_prices df c))); simpl; now rewrite Hp.
    - intros Hp Hm. rewrite Hp, Hm. simpl. now rewrite Hm. }
  exact (@Forall2_map_inv _ _ _ _ _ _ _ HP).
Qed.

(** X11. When no price is present at all, every price after derivation is 0.0. *)
Theorem prices_without_any_price (df : list num_row) (out : list drow) :
  create_derived_features df = Ok out ->
  Forall (fun r : num_row => isna (Price r) = true) df ->
  Forall (fun d : drow => Price d = Fin 0) out.
Proof.
  intros H Hall. destruct (@create_derived_features_inv _ _ H) as (t1 & H1 & ->).
  cbv zeta. clear H.
  set (M := category_medians _). clearbody M.
  assert (H1' : Forall (fun r1 : int_row => Price r1 = NaN) t1).
  { pose proof (fill_review_count_rows df H1) as HF. clear H1.
    induction HF as [|r r1 tl tl' (_ & _ & _ & HP & _) _ IH]; [constructor|].
    inversion Hall as [|? ? Hr Htl]; subst.
    constructor; [|now apply IH]. rewrite HP. now destruct (Price r). }
  assert (HX : forall c, median (group_prices (fill_rating t1) c) = NaN).
  { intros c. apply median_missing. unfold group_prices.
    apply Forall_forall. intros x Hx. apply in_map_iff in Hx.
    destruct Hx as (r & <- & Hr). apply filter_In in Hr. destruct Hr as [Hr _].
    unfold fill_rating in Hr. apply in_map_iff in Hr. destruct Hr as (r1 & <- & Hr1).
    rewrite Forall_forall in H1'. simpl. now rewrite (H1' r1 Hr1). }
  assert (HY : Forall (fun r : int_row => Price r = NaN)
                 (fill_price_by_category (fill_rating t1))).
  { unfold fill_price_by_category. apply Forall_forall. intros y Hy.
    apply in_map_iff in Hy. destruct Hy as (r & <- & Hr). simpl.
    destruct (Category r) as [c|]; [|reflexivity].
    rewrite HX. simpl.
    unfold fill_rating in Hr. apply in_map_iff in Hr. destruct Hr as (r1 & <- & Hr1).
    rewrite Forall_forall in H1'. simpl. now apply H1'. }
  apply Forall_forall. intros d Hd. apply in_map_iff in Hd.
  destruct Hd as (r & <- & Hr).
  change (Price (derive M r)) with (Price r).
  unfold fill_price_overall in Hr. apply in_map_iff in Hr.
  destruct Hr as (y & <- & Hy). simpl.
  rewrite (@median_missing (map _ _)).
  - rewrite Forall_forall in HY. now rewrite (HY y Hy).
  - apply Forall_forall. intros x Hx. apply in_map_iff in Hx.
    destruct Hx as (y' & <- & Hy'). rewrite Forall_forall in HY.
    now rewrite (HY y' Hy').
Qed.

(** *** The median and the flag *)

Lemma insert_sorted_In (x y : pyfloat) (l : list pyfloat) :
  In y (insert_sorted x l) -> y = x \/ In y l.
Proof.
  induction l as [|z tl IH]; simpl.
  - intros [<-|[]]. now left.
  - destruct (fle x z); simpl.
    + intros [<-|H]; auto.
    + intros [<-|H]; auto. destruct (IH H); auto.
Qed.

Lemma sort_In (y : pyfloat) (l : list pyfloat) : In y (sort l) -> In y l.
Proof.
  induction l as [|x tl IH]; simpl; [auto|].
  intros H. apply insert_sorted_In in H. destruct H as [->|H]; auto.
Qed.

Lemma fle_not_flt (x p : pyfloat) : fle x p = true -> flt p x = false.
Proof.
  destruct x as [| | |a], p as [| | |b]; simpl; try reflexivity; try discriminate.
  intros H. unfold Qlt_bool. now rewrite H.
Qed.

Lemma finite_sum (a b c : Q) :
  (c < half_overflow)%Q -> (a <= c)%Q -> (b <= c)%Q ->
  finite_or_inf (a + b) = NInf \/ finite_or_inf (a + b) = Fin (a + b).
Proof.
  intros Hc Ha Hb. unfold finite_or_inf.
  destruct (Qle_bool float_overflow (Qabs (a + b))) eqn:E; [|now right].
  destruct (Qle_bool 0 (a + b)) eqn:E0; [|now left].
  exfalso. apply Qle_bool_iff in E, E0. rewrite (Qabs_pos _ E0) in E.
  assert (HF : (float_overflow == 2 * half_overflow)%Q) by (vm_compute; reflexivity).
  revert E HF Hc. generalize float_overflow half_overflow. intros F H E HF Hc. lra.
Qed.

Lemma mean_not_above (x y p : pyfloat) :
  below_overflow p = true ->
  fle x p = true -> fle y p = true -> flt p (fdiv_count (fadd x y) 2) = false.
Proof.
  unfold below_overflow.
  destruct x as [| | |a], y as [| | |b], p as [| | |c];
    cbn [flt fle fadd fdiv_count]; intros Hc Ha Hb;
    try reflexivity; try discriminate.
  unfold Qlt_bool in Hc. apply Bool.negb_true_iff in Hc.
  assert (Hc' : (c < half_overflow)%Q).
  { apply Qnot_le_lt. intros Hle. apply Qle_bool_iff in Hle. congruence. }
  apply Qle_bool_iff in Ha, Hb.
  destruct (finite_sum Hc' Ha Hb) as [-> | ->]; cbn [flt fdiv_count]; [reflexivity|].
  unfold Qlt_bool. apply Bool.negb_false_iff. apply Qle_bool_iff.
  apply Qle_shift_div_r; [reflexivity|].
  change (inject_Z 2) with 2%Q. lra.
Qed.

(** A value below [half_overflow] that no present value of the column
    exceeds is not below the median of the column. *)
Lemma median_not_above (col : list pyfloat) (p : pyfloat) :
  below_overflow p = true ->
  (forall x, In x col -> isna x = false -> fle x p = true) ->
  flt p (median col) = false.
Proof.
  intros Hp H. unfold median.
  set (v := sort (filter notna col)).
  assert (Hv : forall x, In x v -> fle x p = true).
  { intros x Hx. apply sort_In in Hx. apply filter_In in Hx.
    destruct Hx as [Hx Hn]. apply H; [exact Hx|].
    unfold notna in Hn. now destruct (isna x). }
  destruct (List.length v) as [|n] eqn:E.
  - destruct p; reflexivity.
  - assert (H2 : S n / 2 < S n) by (apply Nat.div_lt; lia).
    destruct (Nat.even (S n)).
    + apply mean_not_above; [exact Hp | |]; apply Hv; apply nth_In; rewrite E; lia.
    + apply fle_not_flt. apply Hv. apply nth_In. rewrite E. exact H2.
Qed.

Lemma in_category_true {V C} (c : pystr) (r : row V C) :
  in_category c r = true -> Category r = Some c.
Proof.
  unfold in_category. destruct (Category r) as [c'|]; [|discriminate].
  destruct (pystr_eq_dec c c'); [congruence | discriminate].
Qed.

(** X12. After derivation, a row whose price is below [half_overflow] and is
    not exceeded by the price of any row of its category is not flagged
    high-value, whatever its rating; in particular such a row alone in its
    category is never flagged. *)
Theorem top_price_not_high_value (df : list num_row) (out : list drow) :
  create_derived_features df = Ok out ->
  Forall (fun d : drow =>
    below_overflow (Price d) = true ->
    (forall x : drow, In x out -> Category x = Category d ->
       fle (Price x) (Price d) = true) ->
    IsHighValue d = 0%Z) out.
Proof.
  intros H. destruct (@create_derived_features_inv _ _ H) as (t1 & _ & Hout).
  cbv zeta in Hout. clear H.
  set (T := fill_price_overall (fill_price_by_category (fill_rating t1))) in *.
  subst out. apply Forall_forall. intros d Hd.
  apply in_map_iff in Hd. destruct Hd as (r & <- & Hr). intros Hlow Htop.
  change (Price (derive (category_medians T) r)) with (Price r) in Hlow.
  change (IsHighValue (derive (category_medians T) r))
    with (calculate_is_high_value (category_medians T) r).
  rewrite calculate_is_high_value_flag, (category_medians_get T r Hr).
  assert (E : flt (Price r)
                (if isna match Category r with
                         | Some c => median (group_prices T c)
                         | None => Price r
                         end
                 then Price r
                 else match Category r with
                      | Some c => median (group_prices T c)
                      | None => Price r
                      end) = false).
  { destruct (Category r) as [c|] eqn:Hc.
    - destruct (isna (median (group_prices T c))); [apply flt_irrefl|].
      apply median_not_above; [exact Hlow|]. intros x Hx _.
      unfold group_prices in Hx. apply in_map_iff in Hx.
      destruct Hx as (r' & <- & Hr'). apply filter_In in Hr'.
      destruct Hr' as [Hr' Hcat]. apply in_category_true in Hcat.
      apply (Htop (derive (category_medians T) r')).
      + apply in_map_iff. now exists r'.
      + change (Category r' = Category r). congruence.
    - destruct (isna (Price r)); apply flt_irrefl. }
  rewrite E, Bool.andb_false_r. reflexivity.
Qed.

(** The bound on the price is needed: the sum of the prices 1e308 and
    1.2e308 overflows, their median is infinite, and both rows are flagged,
    the dearer one included. *)
Example top_price_flagged_on_overflow :
  exists d1 d2,
    create_derived_features huge_rows = Ok [d1; d2] /\
    fle (Price d1) (Price d2) = true /\
    IsHighValue d1 = 1%Z /\ IsHighValue d2 = 1%Z.
Proof. eexists. eexists. repeat split; vm_compute; reflexivity. Qed.

(** *** Prices read from a text *)

Local Open Scope N_scope.

Lemma drop_underscores_Forall (P : char -> Prop) (s u : pystr) (prev : bool) :
  Forall P s -> drop_underscores prev s = Some u -> Forall P u.
Proof.
  intros H. revert prev u. induction H as [|c tl Hc _ IH]; intros prev u E; simpl in E.
  - injection E as <-. constructor.
  - destruct (c =? 0x5F).
    + destruct (prev && _); [|discriminate]. now apply (IH false).
    + destruct (drop_underscores (is_digit c) tl) as [u'|] eqn:E'; [|discriminate].
      injection E as <-. constructor; [exact Hc | now apply (IH (is_digit c))].
Qed.

Lemma scale10_nonneg (m e : Z) : (0 <= m)%Z -> (0 <= scale10 m e)%Q.
Proof.
  intros Hm. unfold scale10. destruct (0 <=? e)%Z.
  - unfold Qle. cbn [Qnum Qden inject_Z].
    pose proof (Z.pow_nonneg 10 e ltac:(lia)). nia.
  - unfold Qle. cbn [Qnum Qden]. lia.
Qed.

Lemma parse_decimal_nonneg (s : pystr) (q : Q) :
  parse_decimal s = Some q -> (0 <= q)%Q.
Proof.
  unfold parse_decimal.
  destruct (span is_digit s) as [ip r1].
  destruct (match r1 with
            | [] => ([], r1)
            | c :: tl => if c =? 0x2E then span is_digit tl else ([], r1)
            end) as [fp r2].
  destruct (ip ++ fp) as [|d mant]; [discriminate|].
  destruct r2 as [|c tl].
  - intros H. injection H as <-. apply scale10_nonneg. lia.
  - destruct ((c =? 0x65) || (c =? 0x45)); [|discriminate].
    destruct (split_sign tl) as [neg r3].
    destruct (span is_digit r3) as [[|e ep] [|x rest]]; try discriminate.
    intros H. injection H as <-. apply scale10_nonneg. lia.
Qed.

Lemma finite_or_inf_nonneg (q : Q) : (0 <= q)%Q -> not_negative (finite_or_inf q).
Proof.
  intros H. unfold finite_or_inf.
  destruct (Qle_bool float_overflow (Qabs q)).
  - apply Qle_bool_iff in H. rewrite H. now left.
  - right. now exists q.
Qed.

(** [float] of a text without minus sign is not negative. *)
Lemma py_float_unsigned (s : pystr) (v : pyfloat) :
  Forall (fun c => c <> 0x2D) s -> py_float s = Some v -> v = NaN \/ not_negative v.
Proof.
  intros Hs. unfold py_float.
  destruct (drop_underscores false (strip_by float_space s)) as [u|] eqn:E;
    [|discriminate].
  assert (Hu : Forall (fun c => c <> 0x2D) u).
  { apply (@drop_underscores_Forall _ (strip_by float_space s) u false);
      [now apply strip_by_Forall | exact E]. }
  assert (Hsign : exists body, split_sign u = (false, body)).
  { unfold split_sign. destruct u as [|c tl]; [now eexists|].
    inversion Hu as [|? ? Hc _]; subst.
    destruct (c =? 0x2D) eqn:Ec; [apply N.eqb_eq in Ec; contradiction|].
    destruct (c =? 0x2B); now eexists. }
  destruct Hsign as [body ->].
  destruct (_ || _).
  - intros H. injection H as <-. right. now left.
  - destruct (pystr_eqb _ _).
    + intros H. injection H as <-. now left.
    + destruct (parse_decimal body) as [q|] eqn:Eq; [|discriminate].
      intros H. injection H as <-. right.
      apply finite_or_inf_nonneg. now apply parse_decimal_nonneg with body.
Qed.

(** X7. The price [clean_price] reads from a text is missing or not negative:
    a minus sign in the text is dropped with the other symbols. *)
Theorem clean_price_text_not_negative (s : pystr) :
  clean_price (CStr s) = NaN \/ not_negative (clean_price (CStr s)).
Proof.
  unfold clean_price.
  set (t := filter _ _).
  destruct (py_float t) as [v|] eqn:E; [|now left].
  apply (@py_float_unsigned t v); [|exact E].
  subst t. apply Forall_forall. intros c Hc. apply filter_In in Hc.
  destruct Hc as [_ Hc]. intros ->. vm_compute in Hc. discriminate.
Qed.

Lemma rstrip_by_none (p : char -> bool) (s : pystr) :
  Forall (fun c => p c = false) s -> rstrip_by p s = s.
Proof.
  induction 1 as [|c tl Hc _ IH]; simpl; [reflexivity|].
  rewrite IH. destruct tl; [now rewrite Hc | reflexivity].
Qed.

Lemma strip_by_none (p : char -> bool) (s : pystr) :
  Forall (fun c => p c = false) s -> strip_by p s = s.
Proof.
  intros H. unfold strip_by.
  assert (E : lstrip_by p s = s)
    by (destruct H as [|c tl Hc _]; simpl; [reflexivity | now rewrite Hc]).
  rewrite E. now apply rstrip_by_none.
Qed.

Lemma drop_underscores_none (s : pystr) (prev : bool) :
  Forall (fun c => c = 0x2E) s -> drop_underscores prev s = Some s.
Proof.
  intros H. revert prev. induction H as [|c tl -> _ IH]; intros prev; simpl.
  - reflexivity.
  - now rewrite IH.
Qed.

Lemma span_dots (s : pystr) :
  Forall (fun c => c = 0x2E) s -> span is_digit s = ([], s).
Proof. destruct 1 as [|c tl -> _]; reflexivity. Qed.

Lemma py_float_dots (s : pystr) : Forall (fun c => c = 0x2E) s -> py_float s = None.
Proof.
  intros H. unfold py_float.
  rewrite strip_by_none.
  - rewrite (drop_underscores_none false H).
    destruct H as [|c tl -> Htl]; [reflexivity|].
    cbn [split_sign N.eqb Pos.eqb]. cbn [map].
    change (ascii_lower 0x2E) with 0x2E.
    change (pystr_eqb (0x2E :: map ascii_lower tl) (str "inf")) with false.
    change (pystr_eqb (0x2E :: map ascii_lower tl) (str "infinity")) with false.
    change (pystr_eqb (0x2E :: map ascii_lower tl) (str "nan")) with false.
    cbn [orb]. unfold parse_decimal.
    change (span is_digit (0x2E :: tl)) with (@nil char, 0x2E :: tl).
    cbn [N.eqb Pos.eqb]. now rewrite (span_dots Htl).
  - eapply Forall_impl; [|exact H]. intros c ->. reflexivity.
Qed.

(** X6. A price text without any digit yields no price. *)
Theorem extract_price_without_digit (s : pystr) :
  Forall (fun c => is_digit c = false) s -> extract_price s = None.
Proof.
  intros H. unfold extract_price. destruct s as [|c0 tl0]; [reflexivity|].
  set (t := clean_text (c0 :: tl0)).
  assert (Ht : Forall (fun c => is_digit c = false) t).
  { subst t. unfold clean_text, strip.
    repeat first
      [ apply strip_by_Forall
      | apply remove_class_Forall
      | apply replace_single_Forall; [repeat constructor|] ].
    exact H. }
  clearbody t.
  assert (Hd : Forall (fun c => c = 0x2E) (filter (fun c => is_digit c || (c =? 0x2E)) t)).
  { apply Forall_forall. intros c Hc. apply filter_In in Hc. destruct Hc as [Hc Hk].
    rewrite Forall_forall in Ht. rewrite (Ht c Hc) in Hk. now apply N.eqb_eq in Hk. }
  destruct (filter _ t) as [|x xs] eqn:E; [reflexivity|].
  now rewrite (py_float_dots Hd).
Qed.

(** *** Instances *)

Lemma create_derived_features_complete_witness :
  Forall (fun d : drow =>
    isna (Price d) = false /\ isna (Rating d) = false /\
    isna (PricePerReview d) = false) shop_derived.
Proof.
  apply (@create_derived_features_complete shop_rows). vm_compute. reflexivity.
Defined.

Lemma create_derived_features_outcome_witness :
  (exists out, create_derived_features shop_rows = Ok out /\
               List.length out = List.length shop_rows) /\
  create_derived_features infinite_count_frame = Raise ValueError.
Proof.
  split.
  - apply (proj1 (create_derived_features_outcome shop_rows)).
    repeat constructor.
  - apply (proj2 (create_derived_features_outcome infinite_count_frame)).
    left. reflexivity.
Defined.

Lemma clean_data_outcome_witness :
  (exists out, clean_data quarter_row = mkOutcome (Ok out) (Some out)) /\
  clean_data infinite_count_rows = mkOutcome (Raise OverflowError) None.
Proof.
  split.
  - apply (proj1 (clean_data_outcome quarter_row)). repeat constructor.
  - apply (proj2 (clean_data_outcome infinite_count_rows)). left. reflexivity.
Defined.

Lemma clean_data_two_decimals_witness :
  Forall (fun d : drow =>
    two_decimals (Price d) /\ two_decimals (Rating d) /\
    two_decimals (PricePerReview d)) blank_name_cleaned.
Proof.
  apply (@clean_data_two_decimals blank_name_rows). vm_compute. reflexivity.
Defined.

Lemma clean_data_texts_witness :
  Forall (fun d : drow =>
    stripped (Category d) /\ stripped (ProductURL d) /\
    exists s, ProductName d = Some s /\ s <> [] /\ strip s = s) padded_cleaned.
Proof.
  apply (@clean_data_texts padded_rows).
  - repeat constructor; discriminate.
  - vm_compute. reflexivity.
Defined.

Lemma clean_data_names_of_present_texts_witness :
  map (fun d : drow => ProductName d) padded_cleaned =
  map (@Some pystr)
      (filter (fun name => match name with [] => false | _ => true end)
              (map strip [str "   "; str " Saw "])).
Proof.
  apply (@clean_data_names_of_present_texts padded_rows).
  - repeat constructor; discriminate.
  - reflexivity.
  - vm_compute. reflexivity.
Defined.

Example padded_result :
  map (fun d : drow => (Category d, ProductName d, ProductURL d)) padded_cleaned
  = [(Some (str "Tools"), Some (str "Saw"), Some (str "https://www.banggood.com/p"))].
Proof. vm_compute. reflexivity. Qed.

Example blank_name_result :
  map (fun d : drow => (ProductName d, Price d, ReviewCount d)) blank_name_cleaned
  = [(Some (str "Saw"), Fin 5.00, 7%Z)].
Proof. vm_compute. reflexivity. Qed.

Lemma price_per_review_without_reviews_witness :
  Forall (fun d : drow =>
    (ReviewCount d <= 1)%Z -> feq (PricePerReview d) (Price d) = true) shop_derived.
Proof.
  apply (@price_per_review_without_reviews shop_rows). vm_compute. reflexivity.
Defined.

Lemma imputed_prices_witness :
  Forall2 (fun (r : num_row) (d : drow) =>
    forall c, Category r = Some c ->
      (isna (Price r) = false -> Price d = Price r) /\
      (isna (Price r) = true -> isna (median (group_prices shop_rows c)) = false ->
       Price d = median (group_prices shop_rows c))) shop_rows shop_derived.
Proof.
  apply (@imputed_prices shop_rows). vm_compute. reflexivity.
Defined.

Lemma prices_without_any_price_witness :
  Forall (fun d : drow => Price d = Fin 0) unpriced_derived.
Proof.
  apply (@prices_without_any_price unpriced_rows).
  - vm_compute. reflexivity.
  - repeat constructor.
Defined.

Lemma top_price_not_high_value_witness :
  exists d, nth_error shop_derived 1 = Some d /\
            fle (Fin 4.5) (Rating d) = true /\ IsHighValue d = 0%Z.
Proof.
  pose proof (@top_price_not_high_value shop_rows shop_derived
                ltac:(vm_compute; reflexivity)) as H.
  unfold shop_derived in H. apply Forall_inv_tail in H. apply Forall_inv in H.
  eexists. split; [reflexivity|]. split; [vm_compute; reflexivity|].
  apply H.
  - vm_compute. reflexivity.
  - intros x Hx Hc.
    repeat (destruct Hx as [<-|Hx]; [vm_compute; reflexivity|]).
    contradiction.
Defined.

Lemma extract_price_without_digit_witness :
  extract_price (str "Free!") = None.
Proof.
  apply extract_price_without_digit. repeat constructor.
Defined.

End CleanerMore.

(** ** Loading the cleaned table *)

Module LoaderFacts.
Import CleanerFacts.

Local Open Scope nat_scope.

Lemma int_or_zero_cell (x : pyfloat) :
  int_or_zero x =
  if infinite x then Raise OverflowError
  else Ok (match x with Fin q => Z.quot (Qnum q) (Zpos (Qden q)) | _ => 0%Z end).
Proof. destruct x; reflexivity. Qed.

Lemma float_or_zero_notna (x : pyfloat) : isna (float_or_zero x) = false.
Proof. destruct x; reflexivity. Qed.

(** X17. The parameters prepared for a row fit the columns of the table: the
    category has at most 50 characters and the name at most 255, the flag is
    0 or 1, and the price, the rating and the price per review are not
    missing. *)
Theorem prepare_row_fits (row : csv_row) (p : insert_params) :
  prepare_row row = Ok p ->
  List.length (p_Category p) <= 50 /\
  List.length (p_ProductName p) <= 255 /\
  (p_IsHighValue p = 0%Z \/ p_IsHighValue p = 1%Z) /\
  isna (p_Price p) = false /\ isna (p_Rating p) = false /\
  isna (p_PricePerReview p) = false.
Proof.
  unfold prepare_row.
  destruct (int_or_zero (csv_IsHighValue row)) as [h|e]; cbn [bind]; [|discriminate].
  destruct (int_or_zero (csv_ReviewCount row)) as [n|e]; cbn [bind]; [|discriminate].
  pose proof (firstn_le_length 50 (astype_str (csv_Category row))) as HC.
  pose proof (firstn_le_length 255 (astype_str (csv_ProductName row))) as HN.
  set (cat := firstn 50 _) in *. set (name := firstn 255 _) in *.
  clearbody cat name.
  intros H. injection H as <-.
  cbn [p_Category p_ProductName p_IsHighValue p_Price p_Rating p_PricePerReview].
  rewrite !float_or_zero_notna.
  split; [exact HC|]. split; [exact HN|].
  split; [|repeat split; apply float_or_zero_notna].
  destruct (h =? 0)%Z eqn:E0; cbn [orb].
  - left. now apply Z.eqb_eq.
  - destruct (h =? 1)%Z eqn:E1; [right; now apply Z.eqb_eq | now right].
Qed.

(** X18. A row is prepared when neither its flag nor its review count is
    infinite, and raises [OverflowError] when one of them is. *)
Theorem prepare_row_outcome (row : csv_row) :
  (infinite (csv_IsHighValue row) || infinite (csv_ReviewCount row) = false ->
   exists p, prepare_row row = Ok p) /\
  (infinite (csv_IsHighValue row) || infinite (csv_ReviewCount row) = true ->
   prepare_row row = Raise OverflowError).
Proof.
  unfold prepare_row. rewrite !int_or_zero_cell.
  destruct (infinite (csv_IsHighValue row)), (infinite (csv_ReviewCount row));
    cbn [orb bind]; split; intros H; try discriminate; try reflexivity; now eexists.
Qed.

Lemma insert_rows_accepted (execute : insert_params -> option exception)
    (rows : list csv_row) (table : list insert_params) (count : nat) :
  insert_rows execute rows table count =
  (table ++ accepted execute rows, count + List.length (accepted execute rows)).
Proof.
  revert table count. induction rows as [|row rest IH]; intros table count; simpl.
  - now rewrite app_nil_r, Nat.add_0_r.
  - destruct (prepare_row row) as [p|e]; cbn [bind].
    + destruct (execute p); rewrite IH.
      * reflexivity.
      * rewrite <- app_assoc, length_app. simpl. f_equal. lia.
    + now rewrite IH.
Qed.

(** X19. The insert loop goes through every row: it inserts, in order, the
    rows that are prepared and whose statement succeeds, and skips each
    other row alone; the count it reports is the number of rows inserted,
    at most the number of rows. *)
Theorem insert_rows_count (execute : insert_params -> option exception)
    (rows : list csv_row) :
  insert_rows execute rows [] 0 =
    (accepted execute rows, List.length (accepted execute rows)) /\
  List.length (accepted execute rows) <= List.length rows /\
  (forall rows1 rows2,
     accepted execute (rows1 ++ rows2) =
     accepted execute rows1 ++ accepted execute rows2).
Proof.
  split; [apply insert_rows_accepted|]. split.
  - unfold accepted. induction rows as [|row rest IH]; simpl; [lia|].
    rewrite length_app.
    destruct (prepare_row row) as [p|e]; [destruct (execute p)|]; simpl; lia.
  - intros rows1 rows2. unfold accepted. apply flat_map_app.
Qed.

Lemma int_or_zero_of_int (z : Z) : int_or_zero (of_int z) = Ok z.
Proof. unfold int_or_zero, of_int. simpl. now rewrite Z.quot_1_r. Qed.

Lemma float_or_zero_present (x : pyfloat) : isna x = false -> float_or_zero x = x.
Proof. destruct x; simpl; [discriminate | reflexivity..]. Qed.

Lemma derived_flag (df : list num_row) (pre : list drow) :
  create_derived_features df = Ok pre ->
  Forall (fun d : drow => IsHighValue d = 0%Z \/ IsHighValue d = 1%Z) pre.
Proof.
  intros H. destruct (@create_derived_features_inv _ _ H) as (t1 & _ & ->).
  cbv zeta. apply Forall_forall. intros d Hd. apply in_map_iff in Hd.
  destruct Hd as (r & <- & _).
  change (IsHighValue (derive _ r)) with (calculate_is_high_value
    (category_medians (fill_price_overall (fill_price_by_category (fill_rating t1)))) r).
  rewrite calculate_is_high_value_flag. destruct (_ && _); auto.
Qed.

(** X20. Every row of a table returned by [clean_data] is prepared by the
    loader without exception, with its price, rating, review count, flag
    and price per review unchanged. *)
Theorem cleaned_rows_load (df : list raw_row) (out : list drow) :
  returned (clean_data df) = Ok out ->
  Forall (fun d : drow =>
    exists p, prepare_row (written d) = Ok p /\
      p_Price p = Price d /\ p_Rating p = Rating d /\
      p_ReviewCount p = ReviewCount d /\ p_IsHighValue p = IsHighValue d /\
      p_PricePerReview p = PricePerReview d) out.
Proof.
  intros H. pose proof (returned_rows_complete df H) as HC.
  destruct (@clean_data_returned _ _ H) as (Hp & _ & _).
  destruct (@prepare_inv _ _ Hp) as (t & pre & _ & Hpre & E).
  assert (HF : Forall (fun d : drow => IsHighValue d = 0%Z \/ IsHighValue d = 1%Z) out).
  { subst out. apply Forall_forall. intros d Hd. apply in_map_iff in Hd.
    destruct Hd as (x & <- & Hx). pose proof (derived_flag _ Hpre) as HX.
    rewrite Forall_forall in HX. exact (HX x Hx). }
  clear E. apply Forall_forall. intros d Hd.
  rewrite Forall_forall in HC, HF.
  destruct (HC d Hd) as (H1 & H2 & H3). specialize (HF d Hd).
  unfold prepare_row, written.
  cbn [csv_Category csv_ProductName csv_Price csv_Rating csv_ReviewCount
       csv_IsHighValue csv_PricePerReview csv_ProductURL].
  rewrite !int_or_zero_of_int. cbn [bind].
  rewrite !float_or_zero_present by assumption. rewrite H1, H3.
  eexists. split; [reflexivity|].
  cbn [p_Price p_Rating p_ReviewCount p_IsHighValue p_PricePerReview].
  repeat split. destruct HF as [->| ->]; reflexivity.
Qed.

(** *** Instances *)

Lemma prepare_row_fits_witness :
  List.length (p_Category odd_params) <= 50 /\
  List.length (p_ProductName odd_params) <= 255 /\
  (p_IsHighValue odd_params = 0%Z \/ p_IsHighValue odd_params = 1%Z) /\
  isna (p_Price odd_params) = false /\ isna (p_Rating odd_params) = false /\
  isna (p_PricePerReview odd_params) = false.
Proof.
  apply (@prepare_row_fits odd_row). vm_compute. reflexivity.
Defined.

Example odd_row_prepared :
  List.length (p_Category odd_params) = 50 /\
  p_ProductName odd_params = str "nan" /\ p_IsHighValue odd_params = 1%Z /\
  p_ReviewCount odd_params = 2%Z /\ p_Price odd_params = Fin 0.
Proof. repeat split; vm_compute; reflexivity. Qed.

Lemma prepare_row_outcome_witness :
  (exists p, prepare_row odd_row = Ok p) /\
  prepare_row infinite_row = Raise OverflowError.
Proof.
  split.
  - apply (proj1 (prepare_row_outcome odd_row)). reflexivity.
  - apply (proj2 (prepare_row_outcome infinite_row)). reflexivity.
Defined.

Lemma cleaned_rows_load_witness :
  Forall (fun d : drow =>
    exists p, prepare_row (written d) = Ok p /\
      p_Price p = Price d /\ p_Rating p = Rating d /\
      p_ReviewCount p = ReviewCount d /\ p_IsHighValue p = IsHighValue d /\
      p_PricePerReview p = PricePerReview d) quarter_cleaned.
Proof.
  apply (@cleaned_rows_load quarter_row). vm_compute. reflexivity.
Defined.

End LoaderFacts.
